(** * nova-docker: the Docker hypervisor driver
    ([novadocker/virt/docker/driver.py], class [DockerDriver])

    A shallow embedding of the driver's lifecycle orchestration.  The driver
    is a sequence of blocking calls to collaborators (the container engine
    client, the VIF driver, the network helpers, the host's file system and
    processes).  Every such call is an [event]; a [World] answers an event
    from the history of the calls issued so far, and a driver method is a
    computation that threads that history, each call recorded with its
    answer, and may raise a Python exception.  Logging is left out. *)

From Stdlib Require Import String List ZArith Bool Lia DecimalString.
From Equations Require Import Equations.
Import ListNotations.
Local Open Scope string_scope.
Local Open Scope Z_scope.

Set Implicit Arguments.

(** ** Python exceptions *)

(** The exception classes the driver raises, catches or lets through.  All of
    them derive from [Exception], so an [except Exception] clause catches
    every value of this type. *)
Inductive exn : Type :=
| APIError (status_code : Z) (explanation : string)   (* docker.errors.APIError *)
| KeyError (key : string)
| IndexError
| TypeError (msg : string)
| UnboundLocalError (var : string)
| RuntimeError (msg : string)
| OSError (msg : string)
| IOError (msg : string)
| ProcessExecutionError (msg : string)
| InstanceNotFound (instance_id : string)
| InstanceNotRunning (instance_id : string)
| InstanceDeployFailure (msg : string) (instance_id : string)
| NovaException (msg : string) (instance_id : string)
| ResizeError (reason : string)
| InstanceFaultRollback (inner_exception : exn)
| OtherError (cls : string) (msg : string).

(** Outcome of a call: a value or a raised exception. *)
Inductive Res (A : Type) : Type :=
| Ok (a : A)
| Raise (e : exn).
Arguments Ok {A} a.
Arguments Raise {A} e.

(** ** Data model *)

Record Flavor := {
  vcpus : Z;
  memory_mb : Z;
  flavor_root_gb : Z;
  flavor_ephemeral_gb : Z
}.

(** The compute manager's instance.  [inst_flavor] is what
    [flavors.extract_flavor(instance)] and [instance.get_flavor()] give;
    [inst_is_object] is [isinstance(instance, objects.Instance)];
    [inst_type_memory_mb] is the system-metadata key
    [instance_type_memory_mb] of a legacy (dict) instance. *)
Record Instance := {
  inst_name : string;
  inst_uuid : string;
  inst_hostname : string;
  inst_user_id : string;
  inst_project_id : string;
  inst_root_gb : Z;
  inst_ephemeral_gb : Z;
  inst_flavor : Flavor;
  inst_is_object : bool;
  inst_type_memory_mb : option Z
}.

(** A virtual interface of [network_info]; opaque to the driver. *)
Definition Vif := string.

(** [network_info]: [None] is Python's [None], [Some l] a list of VIFs. *)
Definition NetworkInfo := option (list Vif).

(** A Python dict with string keys and string values. *)
Definition dict := list (string * string).

Fixpoint dict_get (d : dict) (k : string) : option string :=
  match d with
  | [] => None
  | (k', v) :: d' => if String.eqb k' k then Some v else dict_get d' k
  end.

(** Glance image metadata; [im_properties = None] when the dict has no
    ['properties'] key. *)
Record ImageMeta := {
  im_name : string;
  im_id : string;
  im_container_format : string;
  im_properties : option dict
}.

(** An entry of [docker.containers(all=True)]. *)
Record ContainerSummary := {
  ct_Id : string;
  ct_Names : list string;
  ct_Status : string
}.

(** The record [docker.inspect_container] returns. *)
Record InspectInfo := {
  ii_Id : option string;
  ii_State_Running : option bool;
  ii_State_Pid : Z;
  ii_Config_Memory : option Z;
  ii_Config_CpuShares : option Z
}.

(** The record [docker.inspect_image] returns: [ImageInspect_Cmd] is
    [info['Config']['Cmd']]. *)
Record ImageInspect := {
  ImageInspect_Cmd : option (list string)
}.

(** Keyword arguments of [docker_utils.create_host_config]. *)
Record HostConfig := {
  hc_mem_limit : option Z;
  hc_network_mode : option string;
  hc_privileged : option bool;
  hc_dns : option (list string);
  hc_volumes_from : option string;
  hc_binds : list string
}.

(** Arguments of [docker.create_container]. *)
Record CreateContainer := {
  cc_image : string;
  cc_name : string;
  cc_hostname : option string;
  cc_cpu_shares : option Z;
  cc_cpuset : option string;
  cc_environment : option dict;
  cc_command : option string;
  cc_network_disabled : bool;
  cc_volumes : list string;
  cc_host_config : HostConfig
}.

(** Arguments of [docker.update_start]. *)
Record UpdateStart := {
  us_container : string;
  us_mem_limit : Z;
  us_network_mode : string;
  us_privileged : bool;
  us_dns : option (list string);
  us_cpu_shares : option Z;
  us_cpuset : option string;
  us_volumes_from : option string
}.

(** [CONF.docker]. *)
Record Config := {
  docker_cpu_mode : string;
  docker_system_cpuset : string;
  dir_volume_path : string;
  snapshots_directory : string;
  delete_migration_source : bool
}.

(** The option defaults that [docker_opts] registers. *)
Definition default_conf : Config := {|
  docker_cpu_mode := "cpushare";
  docker_system_cpuset := "-1";
  dir_volume_path := "/os_docker_volume";
  snapshots_directory := "/var/lib/nova/instances/snapshots";
  delete_migration_source := false
|}.

(** ** Collaborator calls *)

(** One constructor per external call the driver issues, indexed by the type
    of its answer.  A call that can raise answers in [Res]. *)
Inductive event : Type -> Type :=
(* self.docker: the container engine client *)
| Docker_containers (all : bool) (name_filter : option string)
    : event (Res (list (option ContainerSummary)))
| Docker_inspect_container (container_id : string)
    : event (Res (option InspectInfo))
| Docker_inspect_image (image_name : string) : event (Res (option ImageInspect))
| Docker_tag (image_id repository : string) : event (Res unit)
| Docker_load_repository_file (image_name path : string) : event (Res unit)
| Docker_create_container (args : CreateContainer) : event (Res (option string))
| Docker_update_start (args : UpdateStart) : event (Res unit)
| Docker_kill (container_id : string) : event (Res unit)
| Docker_stop (container_id : string) (timeout : Z) : event (Res unit)
| Docker_pause (container_id : string) : event (Res unit)
| Docker_unpause (container_id : string) : event (Res unit)
| Docker_remove_container (container_id : string) (force v : bool)
    : event (Res unit)
| Docker_commit (container : option string) (repository tag : string)
    : event (Res unit)
| Docker_get_image (image : string) : event (Res string)
| Docker_remove_image (image_name : string) : event (Res unit)
(* self.vif_driver *)
| Vif_plug (instance : Instance) (vif : Vif) : event (Res unit)
| Vif_unplug (instance : Instance) (vif : Vif) : event (Res unit)
| Vif_attach (instance : Instance) (vif : Vif) (container_id : string)
    (sec_if : bool) : event (Res unit)
(* novadocker.virt.docker.network *)
| Network_find_first_ip (instance : Instance) (network_info : NetworkInfo)
    : event (Res string)
| Network_find_dns (network_info : NetworkInfo) : event (Res (list string))
| Network_teardown_network (container_id : string) : event (Res unit)
(* novadocker.virt.docker.cpuset_info.CpusetStatsMap *)
| Cpuset_CpusetStatsMap (system_cpuset : string) : event (Res unit)
| Cpuset_get_map (system_cpuset : string) : event (Res unit)
| Cpuset_less_set_cpus (system_cpuset : string) (cpu_num : Z)
    : event (Res (list string))
| Cpuset_get_unsystem_cpu (system_cpuset : string) : event (Res (list string))
(* the host: files, processes, time *)
| Os_path_exists (path : string) : event bool
| Os_path_isdir (path : string) : event bool
| Shutil_rmtree (path : string) : event (Res unit)
| Utils_execute (cmd : list string) (run_as_root : bool) : event (Res unit)
| Time_sleep (seconds : Z) : event unit
| File_open (path mode : string) : event (Res unit)
| File_write (path data : string) : event (Res unit)
| File_close (path : string) : event (Res unit)
| Fileutils_ensure_tree (path : string) : event (Res unit)
| Tempfile_mkdtemp (dir : string) : event (Res string)
| Uuid_uuid4_hex : event string
| Images_fetch (image_id path user_id project_id : string) : event (Res unit)
| Hostutils_copy_image (src dest host : string) : event (Res unit).

(** A call together with the answer it got, as recorded in the history. *)
Inductive call : Type :=
| Call : forall T : Type, event T -> T -> call.
Arguments Call {T} e answer.

(** The history of calls issued, newest first. *)
Definition trace := list call.

(** The collaborators' behaviour: the answer to a call, given the history
    before it. *)
Definition World := forall T : Type, trace -> event T -> T.

(** ** The driver monad: call history and Python exceptions *)

Definition M (A : Type) : Type := trace -> Res A * trace.

Definition ret {A} (a : A) : M A := fun tr => (Ok a, tr).

Definition raise {A} (e : exn) : M A := fun tr => (Raise e, tr).

Definition bind {A B} (m : M A) (k : A -> M B) : M B :=
  fun tr =>
    match m tr with
    | (Ok a, tr') => k a tr'
    | (Raise e, tr') => (Raise e, tr')
    end.

(** [try: body / except Exception as e: handler e]. *)
Definition try_except {A} (body : M A) (handler : exn -> M A) : M A :=
  fun tr =>
    match body tr with
    | (Ok a, tr') => (Ok a, tr')
    | (Raise e, tr') => handler e tr'
    end.

Declare Scope py_scope.
Delimit Scope py_scope with py.
Notation "x <- m ;; k" := (bind m (fun x => k))
  (at level 61, m at next level, right associativity) : py_scope.
Notation "m ;; k" := (bind m (fun _ => k))
  (at level 61, right associativity) : py_scope.
Local Open Scope py_scope.

(** [for x in l: body x], stopping at the first exception. *)
Fixpoint for_each {A} (l : list A) (body : A -> M unit) : M unit :=
  match l with
  | [] => ret tt
  | x :: l' => body x ;; for_each l' body
  end.

(** ** Python string helpers *)

(** [s[1:]] *)
Definition drop_first (s : string) : string :=
  match s with
  | EmptyString => EmptyString
  | String _ t => t
  end.

(** [s[n:]] *)
Fixpoint str_drop (n : nat) (s : string) : string :=
  match n, s with
  | O, _ => s
  | S n', EmptyString => EmptyString
  | S n', String _ t => str_drop n' t
  end.

(** [needle in hay] *)
Fixpoint str_contains (needle hay : string) : bool :=
  String.prefix needle hay ||
  match hay with
  | EmptyString => false
  | String _ t => str_contains needle t
  end.

(** Truth value of an optional string: [None] and [''] are falsy.  Returns
    the string when it is truthy. *)
Definition truthy (o : option string) : option string :=
  match o with
  | Some EmptyString => None
  | Some s => Some s
  | None => None
  end.

(** Truth value of an optional list: [None] and [[]] are falsy. *)
Definition truthy_list {A} (o : option (list A)) : bool :=
  match o with
  | Some (_ :: _) => true
  | _ => false
  end.

(** Termination measure of the process-id poll. *)
Definition distance_to_16 (n : Z) : nat := Z.to_nat (16 - n).
Arguments distance_to_16 : simpl never.

(** ** The driver *)

Section DockerDriver.

Variable w : World.
Variable CONF : Config.

(** Python's [str] on an exception, as [msg.format(e)] interpolates it.  The
    text is defined by the exception classes of docker-py, nova and the
    standard library, none of which belongs to the driver, so the driver is
    read for an arbitrary rendering. *)
Variable str : exn -> string.

(** Issue a call that may raise. *)
Definition perform {A} (e : event (Res A)) : M A :=
  fun tr => let answer := w tr e in (answer, Call e answer :: tr).

(** Issue a call that cannot raise. *)
Definition query {A} (e : event A) : M A :=
  fun tr => let answer := w tr e in (Ok answer, Call e answer :: tr).

(** *** Identity resolver *)

(** [_exist_container]: the loop over [docker.containers(all=True)].  An
    entry is a dict; the empty dict has no ['Names'] key. *)
Fixpoint _exist_container_loop (container_name : string)
    (containers : list (option ContainerSummary)) : M bool :=
  match containers with
  | [] => ret false
  | None :: _ => raise (KeyError "Names")
  | Some container :: rest =>
      match ct_Names container with
      | [] => raise IndexError
      | n0 :: _ =>
          if String.eqb (drop_first n0) container_name then ret true
          else _exist_container_loop container_name rest
      end
  end.

Definition _exist_container (container_name : string) : M bool :=
  containers <- perform (Docker_containers true None) ;;
  _exist_container_loop container_name containers.

(** The [for ct in containers] loop of [_find_container_by_name]: [Some r]
    when the loop returns [r], [None] when it runs to its end.  An
    inspection record is a dict, [None] standing for the empty dict. *)
Fixpoint _find_container_by_name_loop (name : string)
    (containers : list (option ContainerSummary))
    : M (option (option InspectInfo)) :=
  match containers with
  | [] => ret None
  | None :: rest => _find_container_by_name_loop name rest
  | Some ct :: rest =>
      match ct_Names ct with
      | [] => raise IndexError
      | n0 :: _ =>
          if String.eqb (drop_first n0) name then
            info <- perform (Docker_inspect_container (ct_Id ct)) ;;
            ret (Some info)
          else _find_container_by_name_loop name rest
      end
  end.

Definition _find_container_by_name (name : string) : M (option InspectInfo) :=
  returned <-
    try_except
      (containers <- perform (Docker_containers true (Some name)) ;;
       _find_container_by_name_loop name containers)
      (fun e =>
         match e with
         | APIError status_code _ =>
             if status_code =? 404 then ret None else raise e
         | _ => raise e
         end) ;;
  match returned with
  | Some info => ret info
  | None => ret None                       (* return {} *)
  end.

(** [_get_container_id]: [.get('Id')] of the inspection record. *)
Definition _get_container_id (instance : Instance) : M (option string) :=
  info <- _find_container_by_name (inst_name instance) ;;
  ret (match info with
       | Some i => ii_Id i
       | None => None
       end).

(** *** Process-id discovery *)

(** The [while True] loop of [_find_container_pid], from counter value [n].
    [Some pid] is a returned pid, [None] the bare [return].  The loop is
    defined by well-founded recursion: past the guard [n > 15] the distance
    of [n] to 16 decreases with [n += 1]. *)
Equations? _find_container_pid_loop (container_id : string) (n : Z)
    (tr : trace) : Res (option Z) * trace by wf (distance_to_16 n) lt :=
_find_container_pid_loop container_id n tr with Z_gt_le_dec n 15 := {
  | left _ => (Ok None, tr)
  | right Hn =>
      match perform (Docker_inspect_container container_id) tr with
      | (Raise e, tr1) => (Raise e, tr1)
      | (Ok info, tr1) =>
          let continue :=
            match query (Time_sleep 1) tr1 with
            | (_, tr2) => _find_container_pid_loop container_id (n + 1) tr2
            end in
          match info with
          | Some i =>
              let pid := ii_State_Pid i in
              if pid =? 0 then continue else (Ok (Some pid), tr1)
          | None => continue
          end
      end }.
Proof. unfold distance_to_16. lia. Qed.

Definition _find_container_pid (container_id : string) : M (option Z) :=
  _find_container_pid_loop container_id 0.

(** *** Resource allocation planner *)

Definition units_Mi : Z := 1048576.

Definition _get_memory_limit_bytes (instance : Instance) : Z :=
  if inst_is_object instance then
    memory_mb (inst_flavor instance) * units_Mi
  else
    match inst_type_memory_mb instance with
    | Some mb => mb * units_Mi
    | None => 0 * units_Mi
    end.

Definition is_cpuset_or_mix (cpu_mode : string) : bool :=
  String.eqb cpu_mode "cpuset" || String.eqb cpu_mode "mix".

(** [None] is the bare [return]. *)
Definition _get_cpu_shares (instance : Instance) : option Z :=
  let cpu_mode := docker_cpu_mode CONF in
  if is_cpuset_or_mix cpu_mode then
    let flavor := inst_flavor instance in
    Some (vcpus flavor * 1024)
  else None.

(** [set_str = ori_list[0][3:]] followed by the loop over [ori_list[1:]]
    that appends [',' + cpu[3:]]; both branches of [_get_cpu_set] end so. *)
Definition join_cpu_numbers (ori_list : list string) : M string :=
  match ori_list with
  | [] => raise IndexError
  | cpu0 :: rest =>
      ret (fold_left (fun set_str cpu => set_str ++ "," ++ str_drop 3 cpu)
                     rest (str_drop 3 cpu0))
  end.

Definition _get_cpu_set (instance : Instance) : M (option string) :=
  let cpu_mode := docker_cpu_mode CONF in
  let system_cpuset := docker_system_cpuset CONF in
  if is_cpuset_or_mix cpu_mode then
    let flavor := inst_flavor instance in
    let cpu_num := vcpus flavor in
    perform (Cpuset_CpusetStatsMap system_cpuset) ;;
    perform (Cpuset_get_map system_cpuset) ;;
    ori_list <- perform (Cpuset_less_set_cpus system_cpuset cpu_num) ;;
    set_str <- join_cpu_numbers ori_list ;;
    ret (Some set_str)
  else
    if negb (String.eqb system_cpuset "-1") then
      perform (Cpuset_CpusetStatsMap system_cpuset) ;;
      ori_list <- perform (Cpuset_get_unsystem_cpu system_cpuset) ;;
      set_str <- join_cpu_numbers ori_list ;;
      ret (Some set_str)
    else ret None.

(** *** Image helpers *)

(** [image_meta[...]] on a possibly-[None] metadata. *)
Definition subscript {A} (image_meta : option ImageMeta)
    (field : ImageMeta -> A) : M A :=
  match image_meta with
  | Some im => ret (field im)
  | None => raise (TypeError "'NoneType' object has no attribute '__getitem__'")
  end.

(** [image_meta and image_meta.get('properties', {}).get(key)], reduced to
    the truthy string or nothing. *)
Definition property (image_meta : option ImageMeta) (key : string)
    : option string :=
  match image_meta with
  | Some im =>
      match im_properties im with
      | Some properties => truthy (dict_get properties key)
      | None => None
      end
  | None => None
  end.

Definition _get_image_name (instance : Instance)
    (image : option ImageMeta) : M string :=
  fmt <- subscript image im_container_format ;;
  if negb (String.eqb fmt "docker") then
    raise (InstanceDeployFailure
             ("Image container format not supported (" ++ fmt ++ ")")
             (inst_name instance))
  else subscript image im_name.

Definition _tag_image_name (image_meta : option ImageMeta)
    (image_name : string) : M unit :=
  let image_type :=
    match property image_meta "docker_image_type" with
    | Some t => t
    | None => "repository"
    end in
  if String.eqb image_type "image" then
    image_meta_uuid <- subscript image_meta im_id ;;
    let image_id :=
      substring 0 8 image_meta_uuid ++ substring 9 4 image_meta_uuid in
    perform (Docker_tag image_id image_name)
  else ret tt.

Record DirVolumes := {
  log_volume : option string;
  data_volume : option string;
  other_volume : option string
}.

(** Each role is kept only when its property is truthy. *)
Definition _get_dir_volume (image_meta : option ImageMeta) : DirVolumes :=
  {| log_volume := property image_meta "log_volume";
     data_volume := property image_meta "data_volume";
     other_volume := property image_meta "other_volume" |}.

(** [try: body / finally: cleanup]. *)
Definition try_finally {A} (body : M A) (cleanup : M unit) : M A :=
  fun tr =>
    match body tr with
    | (r, tr') =>
        match cleanup tr' with
        | (Ok _, tr'') => (r, tr'')
        | (Raise e, tr'') => (Raise e, tr'')
        end
    end.

(** [with utils.tempdir(dir=...) as tmpdir]: the directory is removed on
    exit, an [OSError] of the removal being logged only. *)
Definition with_tempdir {A} (dir : string) (body : string -> M A) : M A :=
  tmpdir <- perform (Tempfile_mkdtemp dir) ;;
  try_finally (body tmpdir)
    (try_except (perform (Shutil_rmtree tmpdir))
       (fun e => match e with
                 | OSError _ => ret tt
                 | _ => raise e
                 end)).

Definition _pull_missing_image (image_meta : option ImageMeta)
    (instance : Instance) : M (option ImageInspect) :=
  subscript image_meta im_name ;;
  let snapshot_directory := snapshots_directory CONF in
  perform (Fileutils_ensure_tree snapshot_directory) ;;
  with_tempdir snapshot_directory (fun tmpdir =>
    try_except
      (hex <- query Uuid_uuid4_hex ;;
       let out_path := tmpdir ++ "/" ++ hex in
       image_id <- subscript image_meta im_id ;;
       perform (Images_fetch image_id out_path
                  (inst_user_id instance) (inst_project_id instance)) ;;
       name <- subscript image_meta im_name ;;
       perform (Docker_load_repository_file name out_path))
      (fun e =>
         name <- subscript image_meta im_name ;;
         raise (NovaException ("Cannot load repository file: " ++ str e)
                  name))) ;;
  name <- subscript image_meta im_name ;;
  perform (Docker_inspect_image name).

(** *** Container spec builder *)

(** The [args] dict that [_create_container_args] builds and [spawn]
    extends; an absent key is [None]. *)
Record ContainerArgs := {
  args_hostname : option string;
  args_mem_limit : option Z;
  args_cpu_shares : option Z;
  args_cpuset : option string;
  args_network_mode : option string;
  args_privileged : option bool;
  args_command : option string;
  args_dns : option (list string);
  args_volumes_from : option string
}.

(** The double-quote character. *)
Definition dquote : string := String (Ascii.ascii_of_nat 34) EmptyString.

(** [sh -c "while true;do sleep 10;done"] *)
Definition keep_alive_command : string :=
  "sh -c " ++ dquote ++ "while true;do sleep 10;done" ++ dquote.

(** [image_inspect_info and image_inspect_info['Config']['Cmd']] *)
Definition image_has_cmd (image_inspect_info : option ImageInspect) : bool :=
  match image_inspect_info with
  | Some info => truthy_list (ImageInspect_Cmd info)
  | None => false
  end.

(** [dns_list = network.find_dns(network_info)], an empty list collapsed to
    [None]. *)
Definition find_dns_list (network_info : NetworkInfo)
    : M (option (list string)) :=
  dns_list <- perform (Network_find_dns network_info) ;;
  ret (match dns_list with
       | [] => None
       | _ :: _ => Some dns_list
       end).

Definition _create_container_args (instance : Instance)
    (image_meta : option ImageMeta)
    (image_inspect_info : option ImageInspect)
    (network_info : NetworkInfo) : M ContainerArgs :=
  let mem_limit := _get_memory_limit_bytes instance in
  let cpu_shares := _get_cpu_shares instance in
  cpuset <- _get_cpu_set instance ;;
  let command :=
    if negb (image_has_cmd image_inspect_info)
    then Some keep_alive_command else None in
  (* Glance command-line overrides any set in the Docker image *)
  let command :=
    match property image_meta "os_command_line" with
    | Some os_command_line => Some os_command_line
    | None => command
    end in
  dns_list <- find_dns_list network_info ;;
  ret {| args_hostname := Some (inst_hostname instance);
         args_mem_limit := Some mem_limit;
         args_cpu_shares := cpu_shares;
         args_cpuset := cpuset;
         args_network_mode := Some "none";
         args_privileged := Some true;
         args_command := command;
         args_dns := dns_list;
         args_volumes_from := None |}.

(** [args['volumes_from'] = vol_ct_name] *)
Definition set_volumes_from (args : ContainerArgs) (vol_ct_name : string)
    : ContainerArgs :=
  {| args_hostname := args_hostname args;
     args_mem_limit := args_mem_limit args;
     args_cpu_shares := args_cpu_shares args;
     args_cpuset := args_cpuset args;
     args_network_mode := args_network_mode args;
     args_privileged := args_privileged args;
     args_command := args_command args;
     args_dns := args_dns args;
     args_volumes_from := Some vol_ct_name |}.

(** [hostname], [cpu_shares], [cpuset], [environment] and [command] are
    popped from [args]; what is left goes to [create_host_config]. *)
Definition _create_container (instance : Instance) (image_name : string)
    (args : ContainerArgs) : M (option string) :=
  let name := inst_name instance in
  let host_config :=
    {| hc_mem_limit := args_mem_limit args;
       hc_network_mode := args_network_mode args;
       hc_privileged := args_privileged args;
       hc_dns := args_dns args;
       hc_volumes_from := args_volumes_from args;
       hc_binds := [] |} in
  perform (Docker_create_container
             {| cc_image := image_name;
                cc_name := name;
                cc_hostname := args_hostname args;
                cc_cpu_shares := args_cpu_shares args;
                cc_cpuset := args_cpuset args;
                cc_environment := None;
                cc_command := args_command args;
                cc_network_disabled := false;
                cc_volumes := [];
                cc_host_config := host_config |}).

(** *** Volume container manager *)

(** [host_dir + '/<role>/' + nova_name + '_' + first_ip] *)
Definition volume_host_dir (role nova_name first_ip : string) : string :=
  dir_volume_path CONF ++ "/" ++ role ++ "/" ++ nova_name ++ "_" ++ first_ip.

(** One [if <role>_volume:] block: the volume and its bind are appended. *)
Definition add_volume (role nova_name first_ip : string)
    (volume : option string) (acc : list string * list string)
    : list string * list string :=
  match volume with
  | Some container_path =>
      let host_dir := volume_host_dir role nova_name first_ip in
      let bind := host_dir ++ ":" ++ container_path in
      ((fst acc ++ [container_path])%list, (snd acc ++ [bind])%list)
  | None => acc
  end.

(** [docker.create_host_config(binds=all_binds)] *)
Definition binds_host_config (all_binds : list string) : HostConfig :=
  {| hc_mem_limit := None; hc_network_mode := None; hc_privileged := None;
     hc_dns := None; hc_volumes_from := None; hc_binds := all_binds |}.

Definition _create_volume_containers (instance : Instance)
    (image_name : string) (image_meta : option ImageMeta)
    (network_info : NetworkInfo) : M bool :=
  let dir_volumes := _get_dir_volume image_meta in
  match log_volume dir_volumes, data_volume dir_volumes,
        other_volume dir_volumes with
  | None, None, None => ret false
  | log_volume, data_volume, other_volume =>
      let nova_name := inst_name instance in
      first_ip <- perform (Network_find_first_ip instance network_info) ;;
      let vol_ct_name := nova_name ++ "_vol" in
      let acc := ([], []) in
      let acc := add_volume "log" nova_name first_ip log_volume acc in
      let acc := add_volume "data" nova_name first_ip data_volume acc in
      let acc := add_volume "other" nova_name first_ip other_volume acc in
      let all_volumes := fst acc in
      let all_binds := snd acc in
      perform (Docker_create_container
                 {| cc_image := image_name;
                    cc_name := vol_ct_name;
                    cc_hostname := None;
                    cc_cpu_shares := None;
                    cc_cpuset := None;
                    cc_environment := None;
                    cc_command := None;
                    cc_network_disabled := true;
                    cc_volumes := all_volumes;
                    cc_host_config := binds_host_config all_binds |}) ;;
      ret true
  end.

(** [if os.path.isdir(d): shutil.rmtree(d)] *)
Definition rmtree_if_isdir (host_dir : string) : M unit :=
  isdir <- query (Os_path_isdir host_dir) ;;
  if isdir then perform (Shutil_rmtree host_dir) else ret tt.

Definition _destroy_volume_container (instance : Instance)
    (network_info : NetworkInfo) : M unit :=
  let nova_name := inst_name instance in
  first_ip <- perform (Network_find_first_ip instance network_info) ;;
  let vol_ct_name := nova_name ++ "_vol" in
  exist <- _exist_container vol_ct_name ;;
  if exist then
    perform (Docker_remove_container vol_ct_name true true) ;;
    let log_host_dir := volume_host_dir "log" nova_name first_ip in
    let data_host_dir := volume_host_dir "data" nova_name first_ip in
    let other_host_dir := volume_host_dir "other" nova_name first_ip in
    rmtree_if_isdir log_host_dir ;;
    rmtree_if_isdir data_host_dir ;;
    rmtree_if_isdir other_host_dir
  else ret tt.

(** *** Network attachment sequencer *)

(** [for vif in network_info]: iterating over [None] is a [TypeError]. *)
Definition iterate (network_info : NetworkInfo) : M (list Vif) :=
  match network_info with
  | Some vifs => ret vifs
  | None => raise (TypeError "'NoneType' object is not iterable")
  end.

Definition plug_vifs (instance : Instance) (network_info : NetworkInfo)
    : M unit :=
  vifs <- iterate network_info ;;
  for_each vifs (fun vif => perform (Vif_plug instance vif)).

Definition unplug_vifs (instance : Instance) (network_info : NetworkInfo)
    : M unit :=
  vifs <- iterate network_info ;;
  for_each vifs (fun vif => perform (Vif_unplug instance vif)).

(** Decimal rendering of an integer, as ['{0}'.format(n)] gives. *)
Definition Z_to_str (n : Z) : string := NilEmpty.string_of_int (Z.to_int n).

(** Lines 193-196 of [_attach_vifs]: the netns mount directory is created
    when it is missing. *)
Definition ensure_netns_path : M unit :=
  let netns_path := "/var/run/netns" in
  exists_ <- query (Os_path_exists netns_path) ;;
  if negb exists_
  then perform (Utils_execute ["mkdir"; "-p"; netns_path] true)
  else ret tt.

Definition _attach_vifs (instance : Instance) (network_info : NetworkInfo)
    : M unit :=
  if negb (truthy_list network_info) then ret tt else
  container_id <- _get_container_id instance ;;
  match truthy container_id with
  | None => ret tt
  | Some container_id =>
      ensure_netns_path ;;
      nspid <- _find_container_pid container_id ;;
      match nspid with
      | None | Some 0 =>
          raise (RuntimeError ("Cannot find any PID under container "
                                 ++ dquote ++ container_id ++ dquote))
      | Some nspid =>
          perform (Utils_execute
                     ["ln"; "-sf"; "/proc/" ++ Z_to_str nspid ++ "/ns/net";
                      "/var/run/netns/" ++ container_id] true) ;;
          perform (Utils_execute
                     ["ip"; "netns"; "exec"; container_id;
                      "ip"; "link"; "set"; "lo"; "up"] true) ;;
          vifs <- iterate network_info ;;
          for_each vifs
            (fun vif => perform (Vif_attach instance vif container_id false))
      end
  end.

(** *** Lifecycle state controller *)

(** Lines 527-545 of [_start_container]: the start arguments are computed
    and the container is started. *)
Definition _start_container_launch (container_id : string)
    (instance : Instance) (network_info : NetworkInfo) : M unit :=
  let mem_limit := _get_memory_limit_bytes instance in
  let network_mode := "none" in
  let privileged := true in
  dns_list <- find_dns_list network_info ;;
  let cpu_shares := _get_cpu_shares instance in
  cpuset <- _get_cpu_set instance ;;
  let vol_ct_name := inst_name instance ++ "_vol" in
  exist <- _exist_container vol_ct_name ;;
  let volumes_from := if exist then Some vol_ct_name else None in
  perform (Docker_update_start
             {| us_container := container_id;
                us_mem_limit := mem_limit;
                us_network_mode := network_mode;
                us_privileged := privileged;
                us_dns := dns_list;
                us_cpu_shares := cpu_shares;
                us_cpuset := cpuset;
                us_volumes_from := volumes_from |}).

(** The body of the [try] at lines 549-551. *)
Definition setup_network (instance : Instance) (network_info : NetworkInfo)
    : M unit :=
  plug_vifs instance network_info ;;
  _attach_vifs instance network_info.

(** Lines 547-560 of [_start_container]: the network is set up; on failure
    the container is killed and a deploy failure raised. *)
Definition _start_container_network (container_id : string)
    (instance : Instance) (network_info : NetworkInfo) : M unit :=
  if negb (truthy_list network_info) then ret tt else
  try_except (setup_network instance network_info)
    (fun e =>
       let msg := "Cannot setup network: " in
       perform (Docker_kill container_id) ;;
       (* self.docker.remove_container(container_id, force=True) is
          commented out in the source *)
       raise (InstanceDeployFailure (msg ++ str e) (inst_name instance))).

Definition _start_container (container_id : string) (instance : Instance)
    (network_info : NetworkInfo) : M unit :=
  _start_container_launch container_id instance network_info ;;
  _start_container_network container_id instance network_info.

Definition _stop_container (container_id : string) (instance : Instance)
    (timeout : Z) : M unit :=
  try_except (perform (Docker_stop container_id (Z.max timeout 5)))
    (fun e =>
       match e with
       | APIError _ explanation =>
           if negb (str_contains "Unpause the container before stopping"
                      explanation)
           then raise e
           else
             perform (Docker_unpause container_id) ;;
             perform (Docker_stop container_id timeout)
       | _ => raise e
       end).

Definition _network_delete (instance : Instance) (network_info : NetworkInfo)
    (container_id : string) : M unit :=
  try_except
    (perform (Network_teardown_network container_id) ;;
     if truthy_list network_info then unplug_vifs instance network_info
     else ret tt)
    (fun e => ret tt).

Definition cleanup (instance : Instance) (network_info : NetworkInfo)
    : M unit :=
  container_id <- _get_container_id instance ;;
  match truthy container_id with
  | None => unplug_vifs instance network_info
  | Some container_id =>
      perform (Docker_remove_container container_id true false) ;;
      _network_delete instance network_info container_id
  end.

Definition destroy (instance : Instance) (network_info : NetworkInfo)
    : M unit :=
  container_id <- _get_container_id instance ;;
  match truthy container_id with
  | None => ret tt
  | Some container_id =>
      _stop_container container_id instance 10 ;;
      cleanup instance network_info ;;
      _destroy_volume_container instance network_info
  end.

Definition reboot (instance : Instance) (network_info : NetworkInfo)
    : M unit :=
  container_id <- _get_container_id instance ;;
  match truthy container_id with
  | None => ret tt
  | Some container_id =>
      _stop_container container_id instance 10 ;;
      _network_delete instance network_info container_id ;;
      _start_container container_id instance network_info
  end.

Definition power_on (instance : Instance) (network_info : NetworkInfo)
    : M unit :=
  container_id <- _get_container_id instance ;;
  match truthy container_id with
  | None => ret tt
  | Some container_id => _start_container container_id instance network_info
  end.

Definition power_off (instance : Instance) (timeout retry_interval : Z)
    : M unit :=
  container_id <- _get_container_id instance ;;
  match truthy container_id with
  | None => ret tt
  | Some container_id => _stop_container container_id instance 10
  end.

(** [nova.compute.power_state] *)
Inductive power_state := RUNNING | SHUTDOWN.

Record InstanceInfo := {
  info_max_mem : Z;
  info_mem : Z;
  info_num_cpu : Z;
  info_cpu_time : Z;
  info_state : power_state
}.

Definition get_info (instance : Instance) : M InstanceInfo :=
  container <- _find_container_by_name (inst_name instance) ;;
  match container with
  | None => raise (InstanceNotFound (inst_name instance))
  | Some container =>
      let running := ii_State_Running container in
      let mem := match ii_Config_Memory container with
                 | Some m => m
                 | None => 0
                 end in
      let num_cpu := match ii_Config_CpuShares container with
                     | Some c => c
                     | None => 0
                     end / 1024 in
      ret {| info_max_mem := mem;
             info_mem := mem;
             info_num_cpu := num_cpu;
             info_cpu_time := 0;
             info_state := match running with
                           | Some true => RUNNING
                           | _ => SHUTDOWN
                           end |}
  end.

(** [spawn] up to the created container (lines 395-416). *)
Definition spawn_create (instance : Instance) (image_meta : option ImageMeta)
    (network_info : NetworkInfo) : M string :=
  image_name <- _get_image_name instance image_meta ;;
  image_inspect_info <-
    try_except (perform (Docker_inspect_image image_name))
      (fun e => match e with
                | APIError _ _ => ret None
                | _ => raise e
                end) ;;
  image_inspect_info <-
    match image_inspect_info with
    | Some _ => ret image_inspect_info
    | None => _pull_missing_image image_meta instance
    end ;;
  _tag_image_name image_meta image_name ;;
  args <- _create_container_args instance image_meta image_inspect_info
            network_info ;;
  have_vol <- _create_volume_containers instance image_name image_meta
                network_info ;;
  let args :=
    if have_vol then set_volumes_from args (inst_name instance ++ "_vol")
    else args in
  container_id <- _create_container instance image_name args ;;
  match truthy container_id with
  | None =>
      raise (InstanceDeployFailure "Cannot create container"
               (inst_name instance))
  | Some container_id => ret container_id
  end.

Definition spawn (instance : Instance) (image_meta : option ImageMeta)
    (network_info : NetworkInfo) : M unit :=
  container_id <- spawn_create instance image_meta network_info ;;
  _start_container container_id instance network_info.

(** *** Migration coordinator *)

Inductive disk_kind := root_gb | ephemeral_gb.

(** [flavor[kind]] *)
Definition flavor_disk (flavor : Flavor) (kind : disk_kind) : Z :=
  match kind with
  | root_gb => flavor_root_gb flavor
  | ephemeral_gb => flavor_ephemeral_gb flavor
  end.

(** [instance[kind]] *)
Definition instance_disk (instance : Instance) (kind : disk_kind) : Z :=
  match kind with
  | root_gb => inst_root_gb instance
  | ephemeral_gb => inst_ephemeral_gb instance
  end.

(** The exception the resize-down check raises. *)
Definition resize_down_error : exn :=
  InstanceFaultRollback (ResizeError "Unable to resize disk down.").

(** Lines 809-814: checks if the migration needs a disk resize down. *)
Definition check_resize_down (instance : Instance) (flavor : Flavor)
    : M unit :=
  for_each [root_gb; ephemeral_gb] (fun kind =>
    if flavor_disk flavor kind <? instance_disk instance kind
    then raise resize_down_error
    else ret tt).

(** Python binds the positional arguments of a call to the parameters from
    the left; [None] when there are more arguments than parameters.  The
    result pairs the bound parameters with the parameters still free. *)
Fixpoint bind_positional (params : list string) (args : list string)
    : option (dict * list string) :=
  match args, params with
  | [], _ => Some ([], params)
  | a :: args', p :: params' =>
      match bind_positional params' args' with
      | Some (bound, free) => Some ((p, a) :: bound, free)
      | None => None
      end
  | _ :: _, [] => None
  end.

(** Then the keyword arguments: a keyword that names a parameter already
    bound, or no parameter at all, is a [TypeError]. *)
Fixpoint bind_keywords (fname : string) (bound : dict) (free : list string)
    (keywords : dict) : Res dict :=
  match keywords with
  | [] =>
      match free with
      | [] => Ok bound
      | _ :: _ => Raise (TypeError (fname ++ "() takes more arguments"))
      end
  | (k, v) :: keywords' =>
      match dict_get bound k with
      | Some _ =>
          Raise (TypeError (fname ++ "() got multiple values for keyword argument '"
                              ++ k ++ "'"))
      | None =>
          if existsb (String.eqb k) free
          then bind_keywords fname ((k, v) :: bound)
                 (filter (fun p => negb (String.eqb k p)) free) keywords'
          else Raise (TypeError (fname ++ "() got an unexpected keyword argument '"
                                   ++ k ++ "'"))
      end
  end.

(** A call of the method [fname], whose parameters after [self] are
    [params] (none has a default), with positional and keyword arguments. *)
Definition bind_arguments (fname : string) (params : list string)
    (args : list string) (keywords : dict) : Res dict :=
  match bind_positional params args with
  | Some (bound, free) => bind_keywords fname bound free keywords
  | None => Raise (TypeError (fname ++ "() takes fewer arguments"))
  end.

(** The body of [_cleanup_migration(self, migrate_src, image_name)]. *)
Definition _cleanup_migration (migrate_src image_name : string) : M unit :=
  try_except
    (exists_ <- query (Os_path_exists migrate_src) ;;
     (if exists_
      then perform (Utils_execute ["rm"; "-rf"; migrate_src] false)
      else ret tt) ;;
     perform (Docker_remove_image image_name))
    (fun e => ret tt).

(** A call of [self._cleanup_migration] with the given positional and
    keyword arguments. *)
Definition call_cleanup_migration (args : list string) (keywords : dict)
    : M unit :=
  match bind_arguments "_cleanup_migration" ["migrate_src"; "image_name"]
          args keywords with
  | Raise e => raise e
  | Ok bound =>
      match dict_get bound "migrate_src", dict_get bound "image_name" with
      | Some migrate_src, Some image_name =>
          _cleanup_migration migrate_src image_name
      | _, _ => raise (TypeError "_cleanup_migration() takes more arguments")
      end
  end.

(** [with excutils.save_and_reraise_exception(): body], entered while
    handling [saved]: when the body returns, [saved] is raised again; when
    the body raises, [saved] is logged as dropped and the body's exception
    propagates. *)
Definition save_and_reraise_exception {A} (saved : exn) (body : M unit)
    : M A :=
  fun tr =>
    match body tr with
    | (Ok _, tr') => (Raise saved, tr')
    | (Raise e, tr') => (Raise e, tr')
    end.

(** The [except Exception] handler of [migrate_disk_and_power_off] (lines
    831-833).  [image_tar_name] is the local variable of that name, [None]
    while it is not yet assigned. *)
Definition migrate_rollback {A} (instance : Instance) (dest : string)
    (image_tar_name : option string) (e : exn) : M A :=
  save_and_reraise_exception e
    (image_tar_name <-
       match image_tar_name with
       | Some t => ret t
       | None => raise (UnboundLocalError "image_tar_name")
       end ;;
     call_cleanup_migration [dest; image_tar_name]
       [("image_name", inst_name instance)]).

(** Lines 818-820 of the [try] body: up to the assignment of
    [image_tar_name]. *)
Definition migrate_commit (instance : Instance) (container_id : option string)
    (migrate_src : string) : M string :=
  perform (Utils_execute ["mkdir"; "-p"; migrate_src] false) ;;
  perform (Docker_commit container_id (inst_name instance) "latest") ;;
  perform (Docker_get_image (inst_name instance)).

(** Lines 822-830 of the [try] body: the archive is written, the instance
    powered off and the archive transferred. *)
Definition migrate_export (instance : Instance) (dest : string)
    (timeout retry_interval : Z) (migrate_src migrate_dest : string)
    (image_data image_tar_name : string) : M unit :=
  perform (File_open image_tar_name "w") ;;
  perform (File_write image_tar_name image_data) ;;
  perform (File_close image_tar_name) ;;
  power_off instance timeout retry_interval ;;
  perform (Hostutils_copy_image migrate_src migrate_dest dest).

(** One [try] in the source; the handler sees [image_tar_name] unbound for
    a failure of lines 818-820 and bound for one of lines 822-830. *)
Definition migrate_disk_and_power_off (instance : Instance) (dest : string)
    (flavor : Flavor) (network_info : NetworkInfo)
    (timeout retry_interval : Z) : M unit :=
  container_id <- _get_container_id instance ;;
  let snapshot_directory := snapshots_directory CONF in
  let migrate_src := snapshot_directory ++ "/migrate_src/" in
  let migrate_dest := snapshot_directory ++ "/migrate_dest/" in
  check_resize_down instance flavor ;;
  image_data <-
    try_except (migrate_commit instance container_id migrate_src)
      (migrate_rollback instance dest None) ;;
  let image_tar_name := migrate_src ++ inst_name instance ++ ".tar" in
  try_except
    (migrate_export instance dest timeout retry_interval
       migrate_src migrate_dest image_data image_tar_name)
    (migrate_rollback instance dest (Some image_tar_name)).

End DockerDriver.

(** ** The driver, continued: listing, restore and the rest of migration *)

Section DockerDriverRest.

Variable w : World.
Variable CONF : Config.
Variable str : exn -> string.

(** The loop of [list_instances]: the first name of every container,
    without its leading character. *)
Fixpoint list_instances_loop (containers : list (option ContainerSummary))
    : M (list string) :=
  match containers with
  | [] => ret []
  | None :: _ => raise (KeyError "Names")
  | Some container :: rest =>
      match ct_Names container with
      | [] => raise IndexError
      | n0 :: _ =>
          res <- list_instances_loop rest ;;
          ret (drop_first n0 :: res)
      end
  end.

Definition list_instances : M (list string) :=
  containers <- perform w (Docker_containers true None) ;;
  list_instances_loop containers.

(** The loop of [ContainerUtils.container_is_running]: [Some b] when the
    loop returns [b], [None] when it runs to its end. *)
Fixpoint container_is_running_loop (name : string)
    (containers : list (option ContainerSummary)) : M (option bool) :=
  match containers with
  | [] => ret None
  | None :: rest => container_is_running_loop name rest
  | Some ct :: rest =>
      match ct_Names ct with
      | [] => raise IndexError
      | n0 :: _ =>
          if String.eqb (drop_first n0) name then
            if str_contains "Up" (ct_Status ct) then ret (Some true)
            else ret (Some false)
          else container_is_running_loop name rest
      end
  end.

(** [ContainerUtils.container_is_running]; [None] is the implicit [return]
    at the end of the method. *)
Definition container_is_running (instance : Instance) : M (option bool) :=
  let name := inst_name instance in
  try_except
    (containers <- perform w (Docker_containers true (Some name)) ;;
     container_is_running_loop name containers)
    (fun e =>
       match e with
       | APIError status_code _ =>
           if status_code =? 404 then ret None else raise e
       | _ => raise e
       end).

Definition detach_interface (instance : Instance) (vif : Vif) : M unit :=
  perform w (Vif_unplug instance vif).

(** [restore] starts the container with the default [network_info=None]. *)
Definition restore (instance : Instance) : M unit :=
  container_id <- _get_container_id w instance ;;
  match truthy container_id with
  | None => ret tt
  | Some container_id => _start_container w CONF str container_id instance None
  end.

Definition finish_revert_migration (instance : Instance)
    (network_info : NetworkInfo) : M unit :=
  power_on w CONF str instance network_info.

(** [utils.execute('rm', '-rf', image_tar_name, delay_on_retry=True,
    attempts=5)]: the retries happen inside the collaborator. *)
Definition remove_archive (image_tar_name : string) : M unit :=
  perform w (Utils_execute ["rm"; "-rf"; image_tar_name] false).

Definition _cleanup_resize (instance : Instance) (network_info : NetworkInfo)
    : M unit :=
  container_id <- _get_container_id w instance ;;
  match truthy container_id with
  | None => ret tt
  | Some container_id =>
      _stop_container w container_id instance 10 ;;
      perform w (Docker_remove_container container_id true false) ;;
      _network_delete w instance network_info container_id ;;
      let delete_migration_source := delete_migration_source CONF in
      if negb delete_migration_source then ret tt else
      let snapshot_directory := snapshots_directory CONF in
      let migrate_src := snapshot_directory ++ "/migrate_src/" in
      let image_name := inst_name instance in
      let image_tar_name := migrate_src ++ image_name ++ ".tar" in
      remove_archive image_tar_name
  end.

Definition confirm_migration (instance : Instance)
    (network_info : NetworkInfo) : M unit :=
  _cleanup_resize instance network_info.

(** Lines 850-872 of [finish_migration]: the transferred archive is loaded
    and the container created and started. *)
Definition finish_migration_start (instance : Instance)
    (network_info : NetworkInfo) (image_meta : option ImageMeta)
    (image_tar_name : string) : M unit :=
  let image_name := inst_name instance in
  perform w (Docker_load_repository_file image_name image_tar_name) ;;
  image_inspect_info <- perform w (Docker_inspect_image image_name) ;;
  args <- _create_container_args w CONF instance image_meta
            image_inspect_info network_info ;;
  container_id <- _create_container w instance image_name args ;;
  match truthy container_id with
  | None =>
      raise (InstanceDeployFailure "Cannot create container"
               (inst_name instance))
  | Some container_id =>
      _start_container w CONF str container_id instance network_info
  end.

Definition finish_migration (instance : Instance)
    (network_info : NetworkInfo) (image_meta : option ImageMeta) : M unit :=
  let snapshot_directory := snapshots_directory CONF in
  let migrate_dest := snapshot_directory ++ "/migrate_dest/" in
  let image_name := inst_name instance in
  let image_tar_name := migrate_dest ++ image_name ++ ".tar" in
  finish_migration_start instance network_info image_meta image_tar_name ;;
  remove_archive image_tar_name.

End DockerDriverRest.

(** ** Observations on call histories *)

Local Open Scope list_scope.

(** The read-only calls of the identity resolver. *)
Definition is_lookup (c : call) : bool :=
  match c with
  | Call e _ =>
      match e with
      | Docker_containers _ _ | Docker_inspect_container _ => true
      | _ => false
      end
  end.

(** The engine calls that change a container or an image. *)
Definition engine_mutation (c : call) : bool :=
  match c with
  | Call e _ =>
      match e with
      | Docker_stop _ _ | Docker_kill _ | Docker_remove_container _ _ _
      | Docker_create_container _ | Docker_update_start _
      | Docker_pause _ | Docker_unpause _ | Docker_commit _ _ _
      | Docker_tag _ _ | Docker_load_repository_file _ _
      | Docker_remove_image _ => true
      | _ => false
      end
  end.

(** The host calls that change the file system or run a command. *)
Definition host_mutation (c : call) : bool :=
  match c with
  | Call e _ =>
      match e with
      | Shutil_rmtree _ | Utils_execute _ _ | File_open _ _ | File_write _ _
      | File_close _ | Fileutils_ensure_tree _ | Tempfile_mkdtemp _
      | Images_fetch _ _ _ _ | Hostutils_copy_image _ _ _ => true
      | _ => false
      end
  end.

(** A computation issues only calls that satisfy [P]. *)
Definition issues {A} (P : call -> Prop) (m : M A) : Prop :=
  forall (tr tr' : trace) (r : Res A),
    m tr = (r, tr') -> exists new, tr' = new ++ tr /\ Forall P new.

(** ** The volume layout, as specified *)

(** The host-to-container bind of a role:
    [<base-path>/<role>/<instance-name>_<first-ip>:<container-path>]. *)
Definition expected_bind (conf : Config)
    (role instance_name first_ip container_path : string) : string :=
  (dir_volume_path conf ++ "/" ++ role ++ "/" ++ instance_name ++ "_"
     ++ first_ip ++ ":" ++ container_path)%string.

(** The roles with what the image metadata declares for each. *)
Definition declared_volumes (image_meta : option ImageMeta)
    : list (string * option string) :=
  [("log"%string, property image_meta "log_volume");
   ("data"%string, property image_meta "data_volume");
   ("other"%string, property image_meta "other_volume")].

(** One bind per declared role, none for an undeclared one. *)
Definition expected_binds (conf : Config) (instance_name first_ip : string)
    (declared : list (string * option string)) : list string :=
  flat_map (fun rv =>
              match snd rv with
              | Some container_path =>
                  [expected_bind conf (fst rv) instance_name first_ip
                     container_path]
              | None => []
              end) declared.

(** The container paths of the declared roles. *)
Definition expected_volumes (declared : list (string * option string))
    : list string :=
  flat_map (fun rv => match snd rv with
                      | Some container_path => [container_path]
                      | None => []
                      end) declared.

(** The companion container of an instance: named [<instance-name>_vol],
    network disabled, with the given volumes and binds. *)
Definition companion_container (instance : Instance) (image_name : string)
    (volumes binds : list string) : CreateContainer :=
  {| cc_image := image_name;
     cc_name := (inst_name instance ++ "_vol")%string;
     cc_hostname := None;
     cc_cpu_shares := None;
     cc_cpuset := None;
     cc_environment := None;
     cc_command := None;
     cc_network_disabled := true;
     cc_volumes := volumes;
     cc_host_config :=
       {| hc_mem_limit := None; hc_network_mode := None;
          hc_privileged := None; hc_dns := None; hc_volumes_from := None;
          hc_binds := binds |} |}.

(** The host directory of a role:
    [<base-path>/<role>/<instance-name>_<first-ip>]. *)
Definition expected_host_dir (conf : Config)
    (role instance_name first_ip : string) : string :=
  (dir_volume_path conf ++ "/" ++ role ++ "/" ++ instance_name ++ "_"
     ++ first_ip)%string.

(** The calls that clean one host directory, newest first: the directory is
    probed, and removed when the probe found it. *)
Definition probe_and_remove (host_dir : string) (there : bool) : trace :=
  if there
  then [Call (Shutil_rmtree host_dir) (Ok tt);
        Call (Os_path_isdir host_dir) true]
  else [Call (Os_path_isdir host_dir) false].

(** ** The process-id poll, as specified *)

(** An inspection that shows no process id yet: the empty record, or a
    pid of zero. *)
Definition no_pid (info : option InspectInfo) : Prop :=
  match info with
  | Some i => ii_State_Pid i = 0
  | None => True
  end.

(** The history of a run of unsuccessful polls, newest first: each poll is
    one inspect call followed by a sleep of one second. *)
Fixpoint idle_polls (container_id : string)
    (infos : list (option InspectInfo)) : trace :=
  match infos with
  | [] => []
  | info :: older =>
      Call (Time_sleep 1) tt
        :: Call (Docker_inspect_container container_id) (Ok info)
        :: idle_polls container_id older
  end.

(** The engine answered the unsuccessful polls [infos] (newest first) of a
    poll started in the history [tr]: each record is what the engine
    answers to the inspect call in the history that the polls before it
    have left. *)
Fixpoint polls_answered (w : World) (container_id : string) (tr : trace)
    (infos : list (option InspectInfo)) : Prop :=
  match infos with
  | [] => True
  | info :: older =>
      w _ (idle_polls container_id older ++ tr)
        (Docker_inspect_container container_id) = Ok info
      /\ polls_answered w container_id tr older
  end.

(** What a poll that may take at most [budget] inspect calls does from the
    history [tr] on the host [w].  The engine answers some polls, fewer than
    [budget], with records that show no pid, and the next one with a record
    whose pid is not zero, which is returned, or with an exception, which is
    propagated; or it answers [budget] polls with records that show no pid,
    and nothing is returned.  Every unsuccessful poll is followed by a sleep
    of one second, and no other call is issued. *)
Definition poll_result (w : World) (container_id : string) (budget : nat)
    (tr : trace) (res : Res (option Z) * trace) : Prop :=
  exists infos : list (option InspectInfo),
    Forall no_pid infos /\
    polls_answered w container_id tr infos /\
    ((exists i : InspectInfo,
        w _ (idle_polls container_id infos ++ tr)
          (Docker_inspect_container container_id) = Ok (Some i) /\
        ii_State_Pid i <> 0 /\ (length infos < budget)%nat /\
        res = (Ok (Some (ii_State_Pid i)),
               Call (Docker_inspect_container container_id) (Ok (Some i))
                 :: idle_polls container_id infos ++ tr))
     \/ (exists e : exn,
           w _ (idle_polls container_id infos ++ tr)
             (Docker_inspect_container container_id) = Raise e /\
           (length infos < budget)%nat /\
           res = (Raise e,
                  Call (Docker_inspect_container container_id) (Raise e)
                    :: idle_polls container_id infos ++ tr))
     \/ (length infos = budget /\
         res = (Ok None, idle_polls container_id infos ++ tr))).

(** ** Worlds for the worked examples *)

(** A host with no containers where every call succeeds. *)
Definition empty_world : World := fun T tr e =>
  match e in event T return T with
  | Docker_containers _ _ => Ok []
  | Docker_inspect_container _ => Ok None
  | Docker_inspect_image _ => Ok None
  | Docker_tag _ _ => Ok tt
  | Docker_load_repository_file _ _ => Ok tt
  | Docker_create_container _ => Ok None
  | Docker_update_start _ => Ok tt
  | Docker_kill _ => Ok tt
  | Docker_stop _ _ => Ok tt
  | Docker_pause _ => Ok tt
  | Docker_unpause _ => Ok tt
  | Docker_remove_container _ _ _ => Ok tt
  | Docker_commit _ _ _ => Ok tt
  | Docker_get_image _ => Ok "tar-data"
  | Docker_remove_image _ => Ok tt
  | Vif_plug _ _ => Ok tt
  | Vif_unplug _ _ => Ok tt
  | Vif_attach _ _ _ _ => Ok tt
  | Network_find_first_ip _ _ => Ok "10.0.0.2"
  | Network_find_dns _ => Ok []
  | Network_teardown_network _ => Ok tt
  | Cpuset_CpusetStatsMap _ => Ok tt
  | Cpuset_get_map _ => Ok tt
  | Cpuset_less_set_cpus _ _ => Ok []
  | Cpuset_get_unsystem_cpu _ => Ok []
  | Os_path_exists _ => false
  | Os_path_isdir _ => false
  | Shutil_rmtree _ => Ok tt
  | Utils_execute _ _ => Ok tt
  | Time_sleep _ => tt
  | File_open _ _ => Ok tt
  | File_write _ _ => Ok tt
  | File_close _ => Ok tt
  | Fileutils_ensure_tree _ => Ok tt
  | Tempfile_mkdtemp _ => Ok "/tmp/tmpdir"
  | Uuid_uuid4_hex => "0123456789abcdef"
  | Images_fetch _ _ _ _ => Ok tt
  | Hostutils_copy_image _ _ _ => Ok tt
  end.

Definition small_flavor : Flavor :=
  {| vcpus := 2; memory_mb := 512; flavor_root_gb := 10;
     flavor_ephemeral_gb := 0 |}.

Definition vm1 : Instance :=
  {| inst_name := "vm1"; inst_uuid := "uuid-1"; inst_hostname := "vm1-host";
     inst_user_id := "user"; inst_project_id := "project";
     inst_root_gb := 10; inst_ephemeral_gb := 0;
     inst_flavor := small_flavor; inst_is_object := true;
     inst_type_memory_mb := None |}.

(** A host whose only container is named [vm10]: the name filter of the
    engine matches it for [vm1], the exact comparison does not. *)
Definition vm10_world : World := fun T tr e =>
  match e in event T return T with
  | Docker_containers _ _ =>
      Ok [Some {| ct_Id := "c10"; ct_Names := ["/vm10"];
                  ct_Status := "Up 2 hours" |}]
  | e' => empty_world tr e'
  end.

(** The allocation modes other than the default. *)
Definition with_cpu_mode (mode system_cpuset : string) : Config :=
  {| docker_cpu_mode := mode;
     docker_system_cpuset := system_cpuset;
     dir_volume_path := dir_volume_path default_conf;
     snapshots_directory := snapshots_directory default_conf;
     delete_migration_source := delete_migration_source default_conf |}.

(** A host with four processors of which the allocation map hands out
    [cpu2] and [cpu3]. *)
Definition four_cpu_world : World := fun T tr e =>
  match e in event T return T with
  | Cpuset_less_set_cpus _ _ => Ok ["cpu2"%string; "cpu3"%string]
  | Cpuset_get_unsystem_cpu _ => Ok ["cpu2"%string; "cpu3"%string]
  | e' => empty_world tr e'
  end.

(** Image metadata that declares a log and an other volume, no data
    volume. *)
Definition two_volume_image : ImageMeta :=
  {| im_name := "webapp"; im_id := "0f3a9c1e-77aa-4d2b-9b1c-5e6f7a8b9c0d";
     im_container_format := "docker";
     im_properties := Some [("log_volume", "/var/log/app");
                            ("other_volume", "/srv")]%string |}.

(** Image metadata that declares no volume. *)
Definition plain_image : ImageMeta :=
  {| im_name := "webapp"; im_id := "0f3a9c1e-77aa-4d2b-9b1c-5e6f7a8b9c0d";
     im_container_format := "docker";
     im_properties := Some [("os_command_line", "/sbin/init")]%string |}.

(** Was the newest call of the history a probe that found [host_dir]? *)
Definition just_found (host_dir : string) (tr : trace) : bool :=
  match tr with
  | Call e answer :: _ =>
      match e in event T return T -> bool with
      | Os_path_isdir d => fun there => there && String.eqb d host_dir
      | _ => fun _ => false
      end answer
  | [] => false
  end.

(** A host that runs [vm1] and its companion [vm1_vol]; of the three host
    directories only the log directory exists, and removing a directory
    succeeds only right after a probe found it. *)
Definition companion_world : World := fun T tr e =>
  match e in event T return T with
  | Docker_containers _ _ =>
      Ok [Some {| ct_Id := "c1"; ct_Names := ["/vm1"%string];
                  ct_Status := "Up 2 hours" |};
          Some {| ct_Id := "c2"; ct_Names := ["/vm1_vol"%string];
                  ct_Status := "Created" |}]
  | Os_path_isdir d =>
      String.eqb d "/os_docker_volume/log/vm1_10.0.0.2"
  | Shutil_rmtree d =>
      if just_found d tr then Ok tt
      else Raise (OSError "No such file or directory")
  | e' => empty_world tr e'
  end.

(** The entries that [companion_world] lists. *)
Definition companion_listing : list (option ContainerSummary) :=
  [Some {| ct_Id := "c1"; ct_Names := ["/vm1"%string];
           ct_Status := "Up 2 hours" |};
   Some {| ct_Id := "c2"; ct_Names := ["/vm1_vol"%string];
           ct_Status := "Created" |}].

(** A host that runs [vm1] as container [c1], whose process never shows
    up: every inspection reports pid 0. *)
Definition no_process_world : World := fun T tr e =>
  match e in event T return T with
  | Docker_containers _ _ =>
      Ok [Some {| ct_Id := "c1"; ct_Names := ["/vm1"%string];
                  ct_Status := "Up 1 second" |}]
  | Docker_inspect_container _ =>
      Ok (Some {| ii_Id := Some "c1"%string; ii_State_Running := Some true;
                  ii_State_Pid := 0; ii_Config_Memory := None;
                  ii_Config_CpuShares := None |})
  | Os_path_exists _ => true
  | e' => empty_world tr e'
  end.

(** A host that runs [vm1] as container [c1], whose process shows up late:
    an inspection reports pid 0 as long as fewer than four calls have been
    made (two polls with their sleeps), and pid 4242 from then on. *)
Definition slow_start_world : World := fun T tr e =>
  match e in event T return T with
  | Docker_containers _ _ =>
      Ok [Some {| ct_Id := "c1"; ct_Names := ["/vm1"%string];
                  ct_Status := "Up 1 second" |}]
  | Docker_inspect_container _ =>
      Ok (Some {| ii_Id := Some "c1"%string; ii_State_Running := Some true;
                  ii_State_Pid := if (length tr <? 4)%nat then 0 else 4242;
                  ii_Config_Memory := None;
                  ii_Config_CpuShares := None |})
  | e' => empty_world tr e'
  end.

(** What [slow_start_world] answers to an inspection once the process has
    the given pid. *)
Definition slow_start_info (pid : Z) : InspectInfo :=
  {| ii_Id := Some "c1"%string; ii_State_Running := Some true;
     ii_State_Pid := pid; ii_Config_Memory := None;
     ii_Config_CpuShares := None |}.

(** A host that runs [vm1] as container [c1]. *)
Definition running_world : World := fun T tr e =>
  match e in event T return T with
  | Docker_containers _ _ =>
      Ok [Some {| ct_Id := "c1"; ct_Names := ["/vm1"%string];
                  ct_Status := "Up 2 hours" |}]
  | Docker_inspect_container _ =>
      Ok (Some {| ii_Id := Some "c1"%string; ii_State_Running := Some true;
                  ii_State_Pid := 4242; ii_Config_Memory := Some 536870912;
                  ii_Config_CpuShares := Some 2048 |})
  | e' => empty_world tr e'
  end.

(** The same host with an engine that refuses to commit. *)
Definition commit_fails_world : World := fun T tr e =>
  match e in event T return T with
  | Docker_commit _ _ _ => Raise (APIError 500 "commit failed")
  | e' => running_world tr e'
  end.

(** The same host with a transfer to the destination that fails. *)
Definition transfer_fails_world : World := fun T tr e =>
  match e in event T return T with
  | Hostutils_copy_image _ _ _ => Raise (ProcessExecutionError "scp failed")
  | e' => running_world tr e'
  end.

(** A host that has the image and creates container [c9], but on which
    plugging a VIF fails. *)
Definition plug_fails_world : World := fun T tr e =>
  match e in event T return T with
  | Docker_inspect_image _ =>
      Ok (Some {| ImageInspect_Cmd := Some ["/sbin/init"%string] |})
  | Docker_create_container _ => Ok (Some "c9"%string)
  | Vif_plug _ _ => Raise (ProcessExecutionError "ovs-vsctl failed")
  | e' => empty_world tr e'
  end.


(** A flavor with a smaller root disk than [vm1] has. *)
Definition shrunk_flavor : Flavor :=
  {| vcpus := 2; memory_mb := 512; flavor_root_gb := 5;
     flavor_ephemeral_gb := 0 |}.

(** The calls of the migration rollback: removal of the archive and of the
    committed image. *)
Definition is_rollback_cleanup (c : call) : bool :=
  match c with
  | Call e _ =>
      match e with
      | Docker_remove_image _ => true
      | Utils_execute ("rm"%string :: _) _ => true
      | _ => false
      end
  end.

(** What the lookup of [vm1] leaves in the history of [vm10_world]. *)
Definition vm10_listing : trace :=
  [Call (Docker_containers true (Some "vm1"%string))
     (Ok [Some {| ct_Id := "c10"; ct_Names := ["/vm10"%string];
                  ct_Status := "Up 2 hours" |}])].

(** An engine that answers every listing with [404]. *)
Definition not_found_world : World := fun T tr e =>
  match e in event T return T with
  | Docker_containers _ _ => Raise (APIError 404 "no such container")
  | e' => empty_world tr e'
  end.

(** An engine that answers every listing with [500]. *)
Definition engine_error_world : World := fun T tr e =>
  match e in event T return T with
  | Docker_containers _ _ => Raise (APIError 500 "server error")
  | e' => empty_world tr e'
  end.

(** The inspection record of a running container with the given id. *)
Definition inspected (container_id : string) : InspectInfo :=
  {| ii_Id := Some container_id; ii_State_Running := Some true;
     ii_State_Pid := 4242; ii_Config_Memory := Some 536870912;
     ii_Config_CpuShares := None |}.

(** A host that lists [vm10] (stopped) before [vm1] (running): the engine's
    name filter for [vm1] matches both. *)
Definition collision_listing : list (option ContainerSummary) :=
  [Some {| ct_Id := "c10"; ct_Names := ["/vm10"%string];
           ct_Status := "Exited (0) 3 hours ago" |};
   Some {| ct_Id := "c1"; ct_Names := ["/vm1"%string];
           ct_Status := "Up 2 hours" |}].

Definition collision_world : World := fun T tr e =>
  match e in event T return T with
  | Docker_containers _ _ => Ok collision_listing
  | Docker_inspect_container container_id => Ok (Some (inspected container_id))
  | e' => empty_world tr e'
  end.

(** The same host with an engine that cannot stop a container. *)
Definition stop_fails_world : World := fun T tr e =>
  match e in event T return T with
  | Docker_stop _ _ => Raise (APIError 500 "cannot stop")
  | e' => collision_world tr e'
  end.

(** The calls of a run of a per-VIF loop in which every call returned,
    newest first. *)
Definition vif_calls (call_of : Vif -> event (Res unit)) (vifs : list Vif)
    : trace :=
  rev (map (fun vif => Call (call_of vif) (Ok tt)) vifs).

(** A host on which the second VIF cannot be plugged. *)
Definition second_vif_fails_world : World := fun T tr e =>
  match e in event T return T with
  | Vif_plug _ vif =>
      if String.eqb vif "vif1" then Raise (ProcessExecutionError "no bridge")
      else Ok tt
  | e' => empty_world tr e'
  end.

(** A host whose container [c1] is paused: the engine refuses a stop until
    the container has been unpaused. *)
Definition paused_world : World := fun T tr e =>
  match e in event T return T with
  | Docker_stop _ _ =>
      match tr with
      | Call e0 _ :: _ =>
          match e0 with
          | Docker_unpause _ => Ok tt
          | _ => Raise (APIError 500
                          "Unpause the container before stopping")
          end
      | [] => Raise (APIError 500 "Unpause the container before stopping")
      end
  | e' => collision_world tr e'
  end.

(** A host on which the network namespace of a container cannot be torn
    down. *)
Definition teardown_fails_world : World := fun T tr e =>
  match e in event T return T with
  | Network_teardown_network _ => Raise (ProcessExecutionError "netns busy")
  | e' => collision_world tr e'
  end.

(** The calls that wire or unwire a container's network, and the kill that
    answers a failed wiring. *)
Definition network_setup_call (c : call) : bool :=
  match c with
  | Call e _ =>
      match e with
      | Vif_plug _ _ | Vif_unplug _ _ | Vif_attach _ _ _ _
      | Network_teardown_network _ | Docker_kill _ => true
      | Utils_execute _ _ => true
      | _ => false
      end
  end.

(** Image metadata in a format the driver does not run. *)
Definition ovf_image : ImageMeta :=
  {| im_name := "appliance"; im_id := "7c1d2e3f-0000-4a4a-8b8b-123456789abc";
     im_container_format := "ovf"; im_properties := None |}.

(** Image metadata that overrides the command line. *)
Definition init_image : ImageMeta :=
  {| im_name := "webapp"; im_id := "0f3a9c1e-77aa-4d2b-9b1c-5e6f7a8b9c0d";
     im_container_format := "docker";
     im_properties := Some [("os_command_line", "/sbin/init");
                            ("data_volume", "/data")]%string |}.

(** A host that has the image (with a command of its own) and creates
    container [c9]. *)
Definition image_present_world : World := fun T tr e =>
  match e in event T return T with
  | Docker_inspect_image _ =>
      Ok (Some {| ImageInspect_Cmd := Some ["/usr/bin/app"%string] |})
  | Docker_create_container _ => Ok (Some "c9"%string)
  | Network_find_dns _ => Ok ["8.8.8.8"%string]
  | e' => empty_world tr e'
  end.

(** The command of a new container: the image metadata's command line when
    there is one, else nothing when the image has a command of its own, else
    the keep-alive loop. *)
Definition expected_command (image_meta : option ImageMeta)
    (image_inspect_info : option ImageInspect) : option string :=
  match property image_meta "os_command_line" with
  | Some command_line => Some command_line
  | None =>
      if image_has_cmd image_inspect_info then None
      else Some keep_alive_command
  end.

(** The argument bag planned for [vm1] from [init_image] on
    [image_present_world]. *)
Definition planned_args : ContainerArgs :=
  {| args_hostname := Some "vm1-host"%string;
     args_mem_limit := Some 536870912;
     args_cpu_shares := None;
     args_cpuset := None;
     args_network_mode := Some "none"%string;
     args_privileged := Some true;
     args_command := Some "/sbin/init"%string;
     args_dns := Some ["8.8.8.8"%string];
     args_volumes_from := None |}.

(** A host without the image, on which the download of the image fails. *)
Definition fetch_fails_world : World := fun T tr e =>
  match e in event T return T with
  | Images_fetch _ _ _ _ => Raise (IOError "glance unreachable")
  | e' => empty_world tr e'
  end.

(** Image metadata of a committed image, to be tagged by its short id. *)
Definition committed_image : ImageMeta :=
  {| im_name := "snapshot-1"; im_id := "0f3a9c1e-77aa-4d2b-9b1c-5e6f7a8b9c0d";
     im_container_format := "docker";
     im_properties := Some [("docker_image_type", "image")]%string |}.



Definition source_archive (conf : Config) (instance : Instance) : string :=
  (snapshots_directory conf ++ "/migrate_src/" ++ inst_name instance
     ++ ".tar")%string.

Definition dest_archive (conf : Config) (instance : Instance) : string :=
  (snapshots_directory conf ++ "/migrate_dest/" ++ inst_name instance
     ++ ".tar")%string.

(** The configuration that deletes the source archive on confirmation. *)
Definition deleting_conf : Config :=
  {| docker_cpu_mode := docker_cpu_mode default_conf;
     docker_system_cpuset := docker_system_cpuset default_conf;
     dir_volume_path := dir_volume_path default_conf;
     snapshots_directory := snapshots_directory default_conf;
     delete_migration_source := true |}.

(** The program a command line runs. *)
Definition program (cmd : list string) : string :=
  match cmd with
  | prog :: _ => prog
  | [] => EmptyString
  end.

(** A removal of files by [rm]. *)
Definition is_rm (c : call) : bool :=
  match c with
  | Call e _ =>
      match e with
      | Utils_execute cmd _ => String.eqb (program cmd) "rm"
      | _ => false
      end
  end.

(** The calls that the network setup can issue. *)
Definition wiring_call (c : call) : bool :=
  match c with
  | Call e _ =>
      match e with
      | Vif_plug _ _ | Vif_attach _ _ _ _ | Docker_containers _ _
      | Docker_inspect_container _ | Os_path_exists _ | Time_sleep _ => true
      | Utils_execute cmd _ =>
          existsb (String.eqb (program cmd)) ["mkdir"; "ln"; "ip"]%string
      | _ => false
      end
  end.

(** A rendering of exceptions for the worked examples: the message an
    exception was built with, and its class name when it has none. *)
Definition message_of (e : exn) : string :=
  match e with
  | TypeError m | RuntimeError m | OSError m | IOError m
  | ProcessExecutionError m | OtherError _ m
  | InstanceDeployFailure m _ | NovaException m _ => m
  | APIError _ _ => "APIError"
  | KeyError _ => "KeyError"
  | IndexError => "IndexError"
  | UnboundLocalError _ => "UnboundLocalError"
  | InstanceNotFound _ => "InstanceNotFound"
  | InstanceNotRunning _ => "InstanceNotRunning"
  | ResizeError _ => "ResizeError"
  | InstanceFaultRollback _ => "InstanceFaultRollback"
  end.

(** ** Identity resolver: the calls it issues *)

Section Lookup.

Variable w : World.

Lemma find_by_name_loop_trace (name : string) containers tr r tr1 :
  _find_container_by_name_loop w name containers tr = (r, tr1) ->
  exists new, tr1 = new ++ tr /\ Forall (fun c => is_lookup c = true) new.
Proof.
  revert tr r tr1.
  induction containers as [|[ct|] rest IH]; intros tr r tr1; simpl.
  - intros [= <- <-]. now exists [].
  - destruct (ct_Names ct) as [|n0 names].
    + intros [= <- <-]. now exists [].
    + destruct (String.eqb (drop_first n0) name).
      * unfold bind, perform, ret.
        destruct (w tr (Docker_inspect_container (ct_Id ct))) eqn:E;
          intros [= <- <-]; eexists [_]; split; try reflexivity;
          repeat constructor.
      * apply IH.
  - apply IH.
Qed.

Lemma find_by_name_trace (name : string) tr r tr1 :
  _find_container_by_name w name tr = (r, tr1) ->
  exists new, tr1 = new ++ tr /\ Forall (fun c => is_lookup c = true) new.
Proof.
  unfold _find_container_by_name, bind, try_except, perform.
  destruct (w tr (Docker_containers true (Some name))) as [cts|e] eqn:E.
  - destruct (_find_container_by_name_loop w name cts _) as [[r0|e0] tr0] eqn:L.
    + apply find_by_name_loop_trace in L. destruct L as (new & -> & Hn).
      destruct r0; unfold ret; intros [= <- <-];
        (exists (new ++ [Call (Docker_containers true (Some name)) (Ok cts)]);
         split; [now rewrite <- app_assoc|
                 apply Forall_app; split; [assumption|repeat constructor]]).
    + apply find_by_name_loop_trace in L. destruct L as (new & -> & Hn).
      assert (Hx : exists new0,
                 new ++ Call (Docker_containers true (Some name)) (Ok cts) :: tr
                 = new0 ++ tr /\ Forall (fun c => is_lookup c = true) new0).
      { exists (new ++ [Call (Docker_containers true (Some name)) (Ok cts)]).
        split; [now rewrite <- app_assoc|].
        apply Forall_app; split; [assumption|repeat constructor]. }
      destruct e0; unfold raise, ret;
        try (intros [= <- <-]; exact Hx).
      destruct (status_code =? 404); unfold raise, ret;
        intros [= <- <-]; exact Hx.
  - assert (Hx : exists new0,
               Call (Docker_containers true (Some name)) (Raise e) :: tr
               = new0 ++ tr /\ Forall (fun c => is_lookup c = true) new0).
    { exists [Call (Docker_containers true (Some name)) (Raise e)].
      split; [reflexivity|repeat constructor]. }
    destruct e; unfold raise, ret; try (intros [= <- <-]; exact Hx).
    destruct (status_code =? 404); unfold raise, ret;
      intros [= <- <-]; exact Hx.
Qed.

Lemma lookup_is_not_mutation (new : trace) :
  Forall (fun c => is_lookup c = true) new ->
  Forall (fun c => engine_mutation c = false /\ host_mutation c = false) new.
Proof.
  apply Forall_impl. intros [T e a]; simpl. destruct e; simpl; intuition congruence.
Qed.

(** When the lookup is empty, [_get_container_id] gives no id. *)
Lemma get_container_id_absent (instance : Instance) tr tr1 :
  _find_container_by_name w (inst_name instance) tr = (Ok None, tr1) ->
  _get_container_id w instance tr = (Ok None, tr1).
Proof.
  intros H. unfold _get_container_id, bind. now rewrite H.
Qed.

End Lookup.

(** ** Lifecycle operations on an absent container *)

(** C1. When the identity lookup for the instance's name returns the empty
    record, each of [destroy], [reboot], [power_on] and [power_off] returns
    at once: the call history is the one the lookup left, and the lookup
    itself issued only container list and inspect calls, so no stop, kill,
    remove, create or start call (and no other mutation of the engine or of
    the host) is issued. *)
Theorem lifecycle_noop_when_absent (w : World) (conf : Config)
    (str : exn -> string)
    (instance : Instance) (network_info : NetworkInfo)
    (timeout retry_interval : Z) (tr tr1 : trace) :
  _find_container_by_name w (inst_name instance) tr = (Ok None, tr1) ->
  destroy w conf instance network_info tr = (Ok tt, tr1) /\
  reboot w conf str instance network_info tr = (Ok tt, tr1) /\
  power_on w conf str instance network_info tr = (Ok tt, tr1) /\
  power_off w instance timeout retry_interval tr = (Ok tt, tr1) /\
  exists new,
    tr1 = new ++ tr /\
    Forall (fun c => is_lookup c = true /\
                     engine_mutation c = false /\ host_mutation c = false)
      new.
Proof.
  intros H.
  pose proof (get_container_id_absent w instance tr H) as Hid.
  unfold destroy, reboot, power_on, power_off, bind.
  rewrite Hid. simpl. repeat split.
  apply find_by_name_trace in H. destruct H as (new & -> & Hnew).
  exists new. split; [reflexivity|].
  pose proof (lookup_is_not_mutation Hnew) as Hframe.
  rewrite Forall_forall in *. intros c Hc.
  split; [now apply Hnew|now apply Hframe].
Qed.

Lemma lifecycle_noop_when_absent_witness :
  _find_container_by_name vm10_world (inst_name vm1) [] = (Ok None, vm10_listing)
  /\ destroy vm10_world default_conf vm1 (Some ["vif0"%string]) []
     = (Ok tt, vm10_listing)
  /\ power_off vm10_world vm1 0 0 [] = (Ok tt, vm10_listing).
Proof.
  pose proof (lifecycle_noop_when_absent vm10_world default_conf message_of
                vm1 (Some ["vif0"%string]) 0 0 [] (tr1 := vm10_listing)
                eq_refl)
    as (Hdestroy & _ & _ & Hoff & _).
  split; [reflexivity|]. split; assumption.
Defined.

(** C10. When the identity lookup for the instance's name returns the empty
    record, [get_info] raises [InstanceNotFound] for that name; it does not
    return an empty result. *)
Theorem get_info_absent_raises (w : World) (instance : Instance)
    (tr tr1 : trace) :
  _find_container_by_name w (inst_name instance) tr = (Ok None, tr1) ->
  get_info w instance tr = (Raise (InstanceNotFound (inst_name instance)), tr1).
Proof.
  intros H. unfold get_info, bind. now rewrite H.
Qed.

Lemma get_info_absent_raises_witness :
  _find_container_by_name vm10_world (inst_name vm1) [] = (Ok None, vm10_listing)
  /\ get_info vm10_world vm1 []
     = (Raise (InstanceNotFound "vm1"), vm10_listing).
Proof.
  split; [reflexivity|].
  exact (get_info_absent_raises vm10_world vm1 [] eq_refl).
Defined.

(** ** Resource allocation planner *)

(** C5. The CPU-share weight is unset in [cpushare] mode and is the flavor's
    vcpu count times 1024 in [cpuset] and in [mix] mode. *)
Theorem cpu_shares_by_mode (conf : Config) (instance : Instance) :
  (docker_cpu_mode conf = "cpushare"%string ->
   _get_cpu_shares conf instance = None) /\
  (docker_cpu_mode conf = "cpuset"%string \/
   docker_cpu_mode conf = "mix"%string ->
   _get_cpu_shares conf instance
   = Some (vcpus (inst_flavor instance) * 1024)).
Proof.
  unfold _get_cpu_shares, is_cpuset_or_mix.
  split.
  - intros ->. reflexivity.
  - intros [-> | ->]; reflexivity.
Qed.

Lemma cpu_shares_by_mode_witness :
  _get_cpu_shares default_conf vm1 = None /\
  _get_cpu_shares (with_cpu_mode "cpuset" "-1") vm1 = Some 2048 /\
  _get_cpu_shares (with_cpu_mode "mix" "0,1") vm1 = Some 2048.
Proof.
  split; [|split].
  - exact (proj1 (cpu_shares_by_mode default_conf vm1) eq_refl).
  - exact (proj2 (cpu_shares_by_mode (with_cpu_mode "cpuset" "-1") vm1)
             (or_introl eq_refl)).
  - exact (proj2 (cpu_shares_by_mode (with_cpu_mode "mix" "0,1") vm1)
             (or_intror eq_refl)).
Defined.

Lemma str_app_assoc (a b c : string) :
  ((a ++ b) ++ c = a ++ (b ++ c))%string.
Proof.
  induction a as [|ch a IH]; simpl; [reflexivity|now rewrite IH].
Qed.

Lemma fold_join_prefix (p : string) (rest : list string) (q : string) :
  fold_left (fun set_str cpu => (set_str ++ "," ++ str_drop 3 cpu)%string)
    rest (p ++ q)%string
  = (p ++ fold_left
            (fun set_str cpu => (set_str ++ "," ++ str_drop 3 cpu)%string)
            rest q)%string.
Proof.
  revert q. induction rest as [|c rest IH]; intros q; simpl.
  - reflexivity.
  - rewrite str_app_assoc. apply IH.
Qed.

(** The accumulation loop of [_get_cpu_set] is a comma join of the names
    with their first three characters dropped. *)
Lemma join_cpu_numbers_concat (w : World) (cpu0 : string)
    (rest : list string) (tr : trace) :
  join_cpu_numbers (cpu0 :: rest) tr
  = (Ok (String.concat "," (map (str_drop 3) (cpu0 :: rest))), tr).
Proof.
  unfold join_cpu_numbers, ret. f_equal. f_equal.
  revert cpu0. induction rest as [|c rest IH]; intros cpu0.
  - reflexivity.
  - cbn [fold_left map String.concat].
    change (str_drop 3 cpu0 ++ "," ++ str_drop 3 c)%string
      with (str_drop 3 cpu0 ++ ("," ++ str_drop 3 c))%string.
    rewrite <- str_app_assoc, fold_join_prefix, str_app_assoc.
    f_equal. f_equal. apply (IH c).
Qed.

(** C6. In [cpuset] or [mix] mode the CPU set is the comma join of the
    processor numbers (the names with their three-character prefix dropped)
    that the allocation map built for the configured system-reserved set
    hands out when asked for [vcpus] processors.  In [cpushare] mode with a
    system-reserved set other than [-1] it is the comma join of the numbers
    of the map's whole non-system set.  In [cpushare] mode with the sentinel
    [-1] it is unset and no call is issued. *)
Theorem cpu_set_by_mode (w : World) (conf : Config) (instance : Instance)
    (tr : trace) :
  let system_cpuset := docker_system_cpuset conf in
  let built := Call (Cpuset_CpusetStatsMap system_cpuset) (Ok tt) :: tr in
  (docker_cpu_mode conf = "cpuset"%string \/
   docker_cpu_mode conf = "mix"%string ->
   forall cpus : list string,
   cpus <> [] ->
   w _ tr (Cpuset_CpusetStatsMap system_cpuset) = Ok tt ->
   w _ built (Cpuset_get_map system_cpuset) = Ok tt ->
   w _ (Call (Cpuset_get_map system_cpuset) (Ok tt) :: built)
     (Cpuset_less_set_cpus system_cpuset (vcpus (inst_flavor instance)))
   = Ok cpus ->
   fst (_get_cpu_set w conf instance tr)
   = Ok (Some (String.concat "," (map (str_drop 3) cpus)))) /\
  (docker_cpu_mode conf = "cpushare"%string ->
   system_cpuset <> "-1"%string ->
   forall cpus : list string,
   cpus <> [] ->
   w _ tr (Cpuset_CpusetStatsMap system_cpuset) = Ok tt ->
   w _ built (Cpuset_get_unsystem_cpu system_cpuset) = Ok cpus ->
   fst (_get_cpu_set w conf instance tr)
   = Ok (Some (String.concat "," (map (str_drop 3) cpus)))) /\
  (docker_cpu_mode conf = "cpushare"%string ->
   system_cpuset = "-1"%string ->
   _get_cpu_set w conf instance tr = (Ok None, tr)).
Proof.
  intros system_cpuset built. subst built system_cpuset.
  unfold _get_cpu_set, is_cpuset_or_mix.
  split; [|split].
  - intros Hmode [|cpu0 rest] Hne Hnew Hmap Hless; [congruence|].
    assert (Hm : (String.eqb (docker_cpu_mode conf) "cpuset"
                  || String.eqb (docker_cpu_mode conf) "mix") = true)
      by (destruct Hmode as [-> | ->]; reflexivity).
    rewrite Hm. unfold bind, perform. cbn zeta.
    rewrite Hnew, Hmap, Hless.
    rewrite (join_cpu_numbers_concat w). reflexivity.
  - intros Hmode Hsys [|cpu0 rest] Hne Hnew Hall; [congruence|].
    rewrite Hmode.
    change (String.eqb "cpushare" "cpuset" || String.eqb "cpushare" "mix")
      with false. cbn iota.
    apply String.eqb_neq in Hsys. rewrite Hsys. cbn [negb].
    unfold bind, perform. cbn zeta. rewrite Hnew, Hall.
    rewrite (join_cpu_numbers_concat w). reflexivity.
  - intros Hmode Hsys. rewrite Hmode, Hsys. reflexivity.
Qed.

Lemma cpu_set_by_mode_witness :
  fst (_get_cpu_set four_cpu_world (with_cpu_mode "cpuset" "0,1") vm1 [])
  = Ok (Some "2,3"%string) /\
  fst (_get_cpu_set four_cpu_world (with_cpu_mode "cpushare" "0,1") vm1 [])
  = Ok (Some "2,3"%string) /\
  _get_cpu_set four_cpu_world default_conf vm1 [] = (Ok None, []).
Proof.
  pose proof (cpu_set_by_mode four_cpu_world (with_cpu_mode "cpuset" "0,1")
                vm1 []) as (Hset & _ & _).
  pose proof (cpu_set_by_mode four_cpu_world (with_cpu_mode "cpushare" "0,1")
                vm1 []) as (_ & Hshare & _).
  pose proof (cpu_set_by_mode four_cpu_world default_conf vm1 [])
    as (_ & _ & Hunset).
  split; [|split].
  - exact (Hset (or_introl eq_refl) ["cpu2"%string; "cpu3"%string]
             ltac:(discriminate) eq_refl eq_refl eq_refl).
  - exact (Hshare eq_refl ltac:(discriminate) ["cpu2"%string; "cpu3"%string]
             ltac:(discriminate) eq_refl eq_refl).
  - exact (Hunset eq_refl eq_refl).
Defined.

(** ** Volume container manager *)

Lemma add_volume_spec (conf : Config) (role nova_name first_ip : string)
    (volume : option string) (acc : list string * list string) :
  add_volume conf role nova_name first_ip volume acc
  = (fst acc ++ expected_volumes [(role, volume)],
     snd acc ++ expected_binds conf nova_name first_ip [(role, volume)]).
Proof.
  unfold add_volume, expected_volumes, expected_binds, expected_bind,
    volume_host_dir.
  destruct volume as [container_path|]; cbn [flat_map snd fst].
  - rewrite !app_nil_r. repeat rewrite str_app_assoc. reflexivity.
  - rewrite !app_nil_r. now destruct acc.
Qed.

(** The three [if <role>_volume:] blocks together build the specified
    volumes and binds. *)
Lemma add_volumes_spec (conf : Config) (nova_name first_ip : string)
    (lv dv ov : option string) :
  add_volume conf "other" nova_name first_ip ov
    (add_volume conf "data" nova_name first_ip dv
       (add_volume conf "log" nova_name first_ip lv ([], [])))
  = (expected_volumes [("log"%string, lv); ("data"%string, dv);
                       ("other"%string, ov)],
     expected_binds conf nova_name first_ip
       [("log"%string, lv); ("data"%string, dv); ("other"%string, ov)]).
Proof.
  rewrite !add_volume_spec. cbn [fst snd].
  unfold expected_volumes, expected_binds. cbn [flat_map fst snd].
  rewrite !app_nil_r, !app_nil_l, <- !app_assoc. reflexivity.
Qed.

(** C7. When the image metadata declares none of the three volume roles,
    volume-container creation returns false and issues no call at all.  When
    it declares at least one, the first address is looked up, one container
    is created and true is returned: the container is named
    [<instance-name>_vol], is network-disabled, and its binds are exactly
    one [<base-path>/<role>/<instance-name>_<first-ip>:<container-path>] per
    declared role, in the order log, data, other. *)
Theorem create_volume_containers_spec (w : World) (conf : Config)
    (instance : Instance) (image_name : string)
    (image_meta : option ImageMeta) (network_info : NetworkInfo)
    (tr : trace) :
  let declared := declared_volumes image_meta in
  (Forall (fun rv => snd rv = None) declared ->
   _create_volume_containers w conf instance image_name image_meta
     network_info tr = (Ok false, tr)) /\
  (Exists (fun rv => snd rv <> None) declared ->
   forall (first_ip : string) (created : option string),
   let asked :=
     Call (Network_find_first_ip instance network_info) (Ok first_ip) :: tr in
   let companion :=
     companion_container instance image_name (expected_volumes declared)
       (expected_binds conf (inst_name instance) first_ip declared) in
   w _ tr (Network_find_first_ip instance network_info) = Ok first_ip ->
   w _ asked (Docker_create_container companion) = Ok created ->
   _create_volume_containers w conf instance image_name image_meta
     network_info tr
   = (Ok true, Call (Docker_create_container companion) (Ok created) :: asked)).
Proof.
  intros declared. subst declared. unfold declared_volumes.
  unfold _create_volume_containers, _get_dir_volume.
  cbn [log_volume data_volume other_volume].
  destruct (property image_meta "log_volume") as [lv|] eqn:El;
    destruct (property image_meta "data_volume") as [dv|] eqn:Ed;
    destruct (property image_meta "other_volume") as [ov|] eqn:Eo;
    (split;
     [ intros H;
       repeat (apply Forall_cons_iff in H; destruct H as [? H]);
       cbn [snd] in *; try discriminate; try reflexivity
     | intros H first_ip created Hip Hcreate;
       try (exfalso;
            repeat (apply Exists_cons in H; destruct H as [H|H];
                    [now apply H|]);
            now inversion H);
       unfold bind, perform; cbn zeta; rewrite Hip;
       rewrite add_volumes_spec; cbn [fst snd];
       unfold companion_container, binds_host_config in *;
       rewrite Hcreate; reflexivity ]).
Qed.

Lemma create_volume_containers_spec_witness :
  _create_volume_containers empty_world default_conf vm1 "webapp"
    (Some plain_image) (Some ["vif0"%string]) []
  = (Ok false, []) /\
  _create_volume_containers empty_world default_conf vm1 "webapp"
    (Some two_volume_image) (Some ["vif0"%string]) []
  = (Ok true,
     [Call (Docker_create_container
              (companion_container vm1 "webapp"
                 ["/var/log/app"; "/srv"]%string
                 ["/os_docker_volume/log/vm1_10.0.0.2:/var/log/app";
                  "/os_docker_volume/other/vm1_10.0.0.2:/srv"]%string))
        (Ok None);
      Call (Network_find_first_ip vm1 (Some ["vif0"%string]))
        (Ok "10.0.0.2"%string)]).
Proof.
  split.
  - apply (create_volume_containers_spec empty_world default_conf vm1
             "webapp" (Some plain_image) (Some ["vif0"%string]) []).
    repeat constructor.
  - refine (proj2 (create_volume_containers_spec empty_world default_conf vm1
                     "webapp" (Some two_volume_image)
                     (Some ["vif0"%string]) [])
              _ "10.0.0.2"%string None eq_refl eq_refl).
    apply Exists_cons_hd. simpl. discriminate.
Defined.

(** One directory: it is probed, and removed when the host answers the probe
    with [true]. *)
Lemma rmtree_if_isdir_spec (w : World) (host_dir : string) (t : trace) :
  (forall t d, w _ (Call (Os_path_isdir d) true :: t) (Shutil_rmtree d) = Ok tt) ->
  rmtree_if_isdir w host_dir t
  = (Ok tt, probe_and_remove host_dir (w _ t (Os_path_isdir host_dir)) ++ t).
Proof.
  intros Hrm. unfold rmtree_if_isdir, bind, query, perform, ret. cbn zeta.
  destruct (w bool t (Os_path_isdir host_dir)) eqn:E; simpl.
  - now rewrite Hrm.
  - reflexivity.
Qed.

(** C8. With the first address [first_ip] of the instance looked up: if the
    companion container [<instance-name>_vol] exists, it is removed with
    [force] and [v] (its anonymous volumes) set, and then the log, data and
    other host directories are probed in turn, in this order, each one being
    removed exactly when the host answers its probe with [true]: the three
    answers [log_there], [data_there] and [other_there] are the host's, each
    asked in the history the earlier steps have left, and image metadata
    plays no part.  A directory that is not there is not touched, so the
    operation returns normally whenever removing a directory just found
    succeeds.  If the companion container does not exist, nothing further is
    called. *)
Theorem destroy_volume_container_spec (w : World) (conf : Config)
    (instance : Instance) (network_info : NetworkInfo) (first_ip : string)
    (tr tr1 : trace) :
  let vol_ct_name := (inst_name instance ++ "_vol")%string in
  let host_dir role := expected_host_dir conf role (inst_name instance) first_ip in
  let asked :=
    Call (Network_find_first_ip instance network_info) (Ok first_ip) :: tr in
  let removed :=
    Call (Docker_remove_container vol_ct_name true true) (Ok tt) :: tr1 in
  let log_there := w _ removed (Os_path_isdir (host_dir "log"%string)) in
  let after_log :=
    probe_and_remove (host_dir "log"%string) log_there ++ removed in
  let data_there := w _ after_log (Os_path_isdir (host_dir "data"%string)) in
  let after_data :=
    probe_and_remove (host_dir "data"%string) data_there ++ after_log in
  let other_there := w _ after_data (Os_path_isdir (host_dir "other"%string)) in
  w _ tr (Network_find_first_ip instance network_info) = Ok first_ip ->
  (_exist_container w vol_ct_name asked = (Ok true, tr1) ->
   w _ tr1 (Docker_remove_container vol_ct_name true true) = Ok tt ->
   (forall t d, w _ (Call (Os_path_isdir d) true :: t) (Shutil_rmtree d) = Ok tt) ->
   _destroy_volume_container w conf instance network_info tr
   = (Ok tt,
      probe_and_remove (host_dir "other"%string) other_there ++ after_data)) /\
  (_exist_container w vol_ct_name asked = (Ok false, tr1) ->
   _destroy_volume_container w conf instance network_info tr = (Ok tt, tr1)).
Proof.
  intros vol_ct_name host_dir asked removed log_there after_log data_there
    after_data other_there Hip.
  split.
  - intros Hexist Hremove Hrm.
    unfold _destroy_volume_container, bind, perform at 1. cbn zeta.
    rewrite Hip. fold asked. fold vol_ct_name. rewrite Hexist.
    unfold perform at 1. cbn zeta. rewrite Hremove. fold removed.
    change (volume_host_dir conf) with (expected_host_dir conf).
    fold (host_dir "log"%string) (host_dir "data"%string)
      (host_dir "other"%string).
    rewrite (rmtree_if_isdir_spec w (host_dir "log"%string) removed Hrm).
    fold log_there. fold after_log.
    rewrite (rmtree_if_isdir_spec w (host_dir "data"%string) after_log Hrm).
    fold data_there. fold after_data.
    rewrite (rmtree_if_isdir_spec w (host_dir "other"%string) after_data Hrm).
    reflexivity.
  - intros Hexist.
    unfold _destroy_volume_container, bind, perform at 1. cbn zeta.
    rewrite Hip. fold asked. fold vol_ct_name. now rewrite Hexist.
Qed.

Lemma destroy_volume_container_spec_witness :
  _exist_container companion_world "vm1_vol"
    [Call (Network_find_first_ip vm1 None) (Ok "10.0.0.2"%string)]
  = (Ok true,
     [Call (Docker_containers true None) (Ok companion_listing);
      Call (Network_find_first_ip vm1 None) (Ok "10.0.0.2"%string)])
  /\ _destroy_volume_container companion_world default_conf vm1 None []
     = (Ok tt,
        [Call (Os_path_isdir "/os_docker_volume/other/vm1_10.0.0.2") false;
         Call (Os_path_isdir "/os_docker_volume/data/vm1_10.0.0.2") false;
         Call (Shutil_rmtree "/os_docker_volume/log/vm1_10.0.0.2") (Ok tt);
         Call (Os_path_isdir "/os_docker_volume/log/vm1_10.0.0.2") true;
         Call (Docker_remove_container "vm1_vol" true true) (Ok tt);
         Call (Docker_containers true None) (Ok companion_listing);
         Call (Network_find_first_ip vm1 None) (Ok "10.0.0.2"%string)])
  /\ _destroy_volume_container vm10_world default_conf vm1 None []
     = (Ok tt,
        [Call (Docker_containers true None)
           (Ok [Some {| ct_Id := "c10"; ct_Names := ["/vm10"%string];
                        ct_Status := "Up 2 hours" |}]);
         Call (Network_find_first_ip vm1 None) (Ok "10.0.0.2"%string)]).
Proof.
  split; [reflexivity|]. split.
  - refine (proj1 (@destroy_volume_container_spec companion_world default_conf
                     vm1 None "10.0.0.2"%string [] _ eq_refl)
              eq_refl eq_refl _).
    intros t d. simpl. now rewrite String.eqb_refl.
  - exact (proj2 (@destroy_volume_container_spec vm10_world default_conf
                    vm1 None "10.0.0.2"%string [] _ eq_refl)
             eq_refl).
Defined.

(** That run call by call: only the log directory, which is there, is
    removed. *)
Example destroy_volume_container_run :
  _destroy_volume_container companion_world default_conf vm1 None []
  = (Ok tt,
     [Call (Os_path_isdir "/os_docker_volume/other/vm1_10.0.0.2") false;
      Call (Os_path_isdir "/os_docker_volume/data/vm1_10.0.0.2") false;
      Call (Shutil_rmtree "/os_docker_volume/log/vm1_10.0.0.2") (Ok tt);
      Call (Os_path_isdir "/os_docker_volume/log/vm1_10.0.0.2") true;
      Call (Docker_remove_container "vm1_vol" true true) (Ok tt);
      Call (Docker_containers true None) (Ok companion_listing);
      Call (Network_find_first_ip vm1 None) (Ok "10.0.0.2"%string)]).
Proof. reflexivity. Qed.

(** ** Process-id discovery *)

Lemma idle_polls_snoc (container_id : string) (info : option InspectInfo)
    (infos : list (option InspectInfo)) (tr : trace) :
  idle_polls container_id infos
    ++ Call (Time_sleep 1) tt
    :: Call (Docker_inspect_container container_id) (Ok info) :: tr
  = idle_polls container_id (infos ++ [info]) ++ tr.
Proof.
  induction infos as [|i infos IH]; simpl; [reflexivity|].
  now rewrite IH.
Qed.

Lemma polls_answered_snoc (w : World) (container_id : string) (tr : trace)
    (info : option InspectInfo) (infos : list (option InspectInfo)) :
  w _ tr (Docker_inspect_container container_id) = Ok info ->
  polls_answered w container_id
    (Call (Time_sleep 1) tt
       :: Call (Docker_inspect_container container_id) (Ok info) :: tr) infos ->
  polls_answered w container_id tr (infos ++ [info]).
Proof.
  intros Hfirst. induction infos as [|i infos IH]; simpl.
  - intros _. now split.
  - intros [Hi Hrest]. split; [|now apply IH].
    now rewrite <- idle_polls_snoc.
Qed.

(** An unsuccessful poll followed by a poll with one call less to spend. *)
Lemma poll_result_step (w : World) (container_id : string) (budget : nat)
    (tr : trace) (info : option InspectInfo) (res : Res (option Z) * trace) :
  no_pid info ->
  w _ tr (Docker_inspect_container container_id) = Ok info ->
  poll_result w container_id budget
    (Call (Time_sleep 1) tt
       :: Call (Docker_inspect_container container_id) (Ok info) :: tr) res ->
  poll_result w container_id (S budget) tr res.
Proof.
  intros Hinfo Hfirst (infos & Hall & Hanswered & H).
  exists (infos ++ [info]). split; [|split].
  - apply Forall_app. split; [assumption|]. now constructor.
  - now apply polls_answered_snoc.
  - rewrite <- idle_polls_snoc, length_app, Nat.add_1_r.
    destruct H as [(i & Hi & Hpid & Hlen & ->)
                  |[(e & He & Hlen & ->)|(Hlen & ->)]].
    + left. exists i. repeat split; [assumption|assumption|lia].
    + right. left. exists e. repeat split; [assumption|lia].
    + right. right. split; [lia|reflexivity].
Qed.

(** The loop from counter value [n] spends at most [16 - n] inspect calls. *)
Lemma find_container_pid_loop_spec (w : World) (container_id : string)
    (budget : nat) :
  forall (n : Z) (tr : trace),
    distance_to_16 n = budget ->
    poll_result w container_id budget tr
      (_find_container_pid_loop w container_id n tr).
Proof.
  induction budget as [|budget IH]; intros n tr Hn;
    rewrite _find_container_pid_loop_equation_1;
    unfold distance_to_16 in Hn;
    destruct (Z_gt_le_dec n 15) as [Hgt|Hle];
    cbn [_find_container_pid_loop_unfold_clause_1]; try lia.
  - exists []. split; [constructor|]. split; [exact I|].
    right. right. now split.
  - unfold perform, query. cbn zeta.
    assert (Hnext : distance_to_16 (n + 1) = budget)
      by (unfold distance_to_16; lia).
    destruct (w _ tr (Docker_inspect_container container_id))
      as [info|e] eqn:E.
    + destruct (w unit (Call (Docker_inspect_container container_id)
                          (Ok info) :: tr) (Time_sleep 1)).
      destruct info as [i|].
      * cbn zeta. destruct (ii_State_Pid i =? 0) eqn:Epid.
        -- apply poll_result_step with (info := Some i);
             [apply Z.eqb_eq in Epid; exact Epid|exact E|now apply IH].
        -- exists []. split; [constructor|]. split; [exact I|].
           left. exists i.
           apply Z.eqb_neq in Epid.
           repeat split; [exact E|assumption|simpl; lia].
      * apply poll_result_step with (info := None);
          [exact I|exact E|now apply IH].
    + exists []. split; [constructor|]. split; [exact I|].
      right. left. exists e.
      repeat split; [exact E|simpl; lia].
Qed.

(** C9. The process-id poll of [_find_container_pid] is a total function
    that issues at most 16 inspect calls (counter values 0 to 15), with a
    sleep of one second after each unsuccessful one.  On every host, what it
    does is fixed by the engine's answers to these inspect calls: it returns
    the pid of the first answer whose pid is not zero, all the answers before
    it having shown no pid; it propagates the exception of an inspect call;
    and it returns nothing once 16 answers in a row have shown no pid.  When
    it returns nothing, [_attach_vifs] raises a [RuntimeError] naming the
    container and issues no further call. *)
Theorem find_container_pid_bounded (w : World) (container_id : string) :
  (forall tr : trace,
     poll_result w container_id 16 tr (_find_container_pid w container_id tr))
  /\
  (forall (instance : Instance) (network_info : NetworkInfo)
          (tr tr0 tr1 tr2 : trace),
     truthy_list network_info = true ->
     _get_container_id w instance tr = (Ok (Some container_id), tr0) ->
     container_id <> ""%string ->
     ensure_netns_path w tr0 = (Ok tt, tr1) ->
     _find_container_pid w container_id tr1 = (Ok None, tr2) ->
     _attach_vifs w instance network_info tr
     = (Raise (RuntimeError ("Cannot find any PID under container "
                               ++ dquote ++ container_id ++ dquote)%string),
        tr2)).
Proof.
  split.
  - intros tr. unfold _find_container_pid.
    now apply find_container_pid_loop_spec.
  - intros instance network_info tr tr0 tr1 tr2 Hni Hid Hne Hnetns Hpid.
    unfold _attach_vifs. rewrite Hni. cbn [negb]. unfold bind at 1.
    rewrite Hid.
    destruct container_id as [|ch rest]; [congruence|]. cbn [truthy].
    unfold bind. now rewrite Hnetns, Hpid.
Qed.

Lemma find_container_pid_bounded_witness :
  poll_result slow_start_world "c1" 16 []
    (_find_container_pid slow_start_world "c1" []) /\
  _find_container_pid slow_start_world "c1" []
  = (Ok (Some 4242),
     [Call (Docker_inspect_container "c1") (Ok (Some (slow_start_info 4242)));
      Call (Time_sleep 1) tt;
      Call (Docker_inspect_container "c1") (Ok (Some (slow_start_info 0)));
      Call (Time_sleep 1) tt;
      Call (Docker_inspect_container "c1") (Ok (Some (slow_start_info 0)))]) /\
  poll_result no_process_world "c1" 16 []
    (_find_container_pid no_process_world "c1" []) /\
  fst (_find_container_pid no_process_world "c1" []) = Ok None /\
  fst (_attach_vifs no_process_world vm1 (Some ["vif0"%string]) [])
  = Raise (RuntimeError ("Cannot find any PID under container "
                           ++ dquote ++ "c1" ++ dquote)%string).
Proof.
  split; [apply (proj1 (find_container_pid_bounded slow_start_world "c1"))|].
  split; [reflexivity|].
  pose proof (find_container_pid_bounded no_process_world "c1")
    as [Hpoll Hattach].
  split; [apply Hpoll|]. split; [reflexivity|].
  pose (tr0 := snd (_get_container_id no_process_world vm1 [])).
  pose (tr1 := snd (ensure_netns_path no_process_world tr0)).
  pose (tr2 := snd (_find_container_pid no_process_world "c1" tr1)).
  rewrite (Hattach vm1 (Some ["vif0"%string]) [] tr0 tr1 tr2);
    try reflexivity.
  discriminate.
Defined.

(** That poll, counted: 16 inspect calls and 16 sleeps. *)
Example find_container_pid_run :
  length (snd (_find_container_pid no_process_world "c1" [])) = 32%nat /\
  length (filter is_lookup (snd (_find_container_pid no_process_world "c1" [])))
  = 16%nat.
Proof. split; reflexivity. Qed.

(** ** Migration coordinator *)

Lemma get_container_id_trace (w : World) (instance : Instance)
    (tr tr1 : trace) (r : Res (option string)) :
  _get_container_id w instance tr = (r, tr1) ->
  exists new, tr1 = new ++ tr /\ Forall (fun c => is_lookup c = true) new.
Proof.
  unfold _get_container_id, bind, ret.
  destruct (_find_container_by_name w (inst_name instance) tr)
    as [[info|e] tr0] eqn:E; intros [= <- <-];
    exact (find_by_name_trace w _ _ E).
Qed.

(** The check raises, without a call, as soon as one of the two sizes
    shrinks. *)
Lemma check_resize_down_raises (instance : Instance) (flavor : Flavor)
    (tr : trace) :
  flavor_root_gb flavor < inst_root_gb instance \/
  flavor_ephemeral_gb flavor < inst_ephemeral_gb instance ->
  check_resize_down instance flavor tr = (Raise resize_down_error, tr).
Proof.
  intros H. unfold check_resize_down, for_each, bind, flavor_disk,
    instance_disk.
  destruct (flavor_root_gb flavor <? inst_root_gb instance) eqn:Er;
    [reflexivity|].
  destruct (flavor_ephemeral_gb flavor <? inst_ephemeral_gb instance) eqn:Ee;
    [reflexivity|].
  apply Z.ltb_ge in Er, Ee. lia.
Qed.

(** C3. When the destination flavor's [root_gb] or [ephemeral_gb] is
    smaller than the instance's, [migrate_disk_and_power_off] does not
    return: once the identity lookup of its first line has returned it
    raises the resize-down error, and the calls issued are those of that
    lookup alone, all of them container list or inspect calls; so the
    staging directory is not created, no image is committed, no archive is
    written and nothing on the engine or the host is changed. *)
Theorem migrate_resize_down_rejected (w : World) (conf : Config)
    (instance : Instance) (dest : string) (flavor : Flavor)
    (network_info : NetworkInfo) (timeout retry_interval : Z) (tr : trace) :
  flavor_root_gb flavor < inst_root_gb instance \/
  flavor_ephemeral_gb flavor < inst_ephemeral_gb instance ->
  (forall (container_id : option string) (tr1 : trace),
     _get_container_id w instance tr = (Ok container_id, tr1) ->
     migrate_disk_and_power_off w conf instance dest flavor network_info
       timeout retry_interval tr
     = (Raise resize_down_error, tr1)) /\
  (exists (e : exn) (new : trace),
     migrate_disk_and_power_off w conf instance dest flavor network_info
       timeout retry_interval tr
     = (Raise e, new ++ tr) /\
     Forall (fun c => is_lookup c = true /\
                      engine_mutation c = false /\ host_mutation c = false)
       new).
Proof.
  intros Hshrink. split.
  - intros container_id tr1 Hid.
    unfold migrate_disk_and_power_off, bind at 1. rewrite Hid.
    cbn zeta. unfold bind at 1.
    now rewrite check_resize_down_raises.
  - unfold migrate_disk_and_power_off, bind at 1.
    destruct (_get_container_id w instance tr) as [[cid|e] tr1] eqn:Hid;
      pose proof (get_container_id_trace w instance tr Hid)
        as (new & -> & Hnew).
    + exists resize_down_error, new. split.
      * cbn zeta. unfold bind at 1. now rewrite check_resize_down_raises.
      * revert Hnew. apply Forall_impl. intros [T ev a]; simpl.
        destruct ev; simpl; intuition congruence.
    + exists e, new. split; [reflexivity|].
      revert Hnew. apply Forall_impl. intros [T ev a]; simpl.
      destruct ev; simpl; intuition congruence.
Qed.

Lemma migrate_resize_down_rejected_witness :
  (flavor_root_gb shrunk_flavor < inst_root_gb vm1 \/
   flavor_ephemeral_gb shrunk_flavor < inst_ephemeral_gb vm1) /\
  fst (migrate_disk_and_power_off running_world default_conf vm1 "host2"
         shrunk_flavor (Some ["vif0"%string]) 0 0 [])
  = Raise resize_down_error /\
  length (snd (migrate_disk_and_power_off running_world default_conf vm1
                 "host2" shrunk_flavor (Some ["vif0"%string]) 0 0 []))
  = 2%nat.
Proof.
  assert (Hshrink : flavor_root_gb shrunk_flavor < inst_root_gb vm1 \/
                    flavor_ephemeral_gb shrunk_flavor < inst_ephemeral_gb vm1)
    by (left; reflexivity).
  split; [exact Hshrink|].
  pose proof (@migrate_resize_down_rejected running_world default_conf vm1
                "host2" shrunk_flavor (Some ["vif0"%string]) 0 0 [] Hshrink)
    as [Hraise _].
  rewrite (Hraise (Some "c1"%string)
             (snd (_get_container_id running_world vm1 [])) eq_refl).
  split; reflexivity.
Defined.


(** C2 (the code departs from the claim).  Two failing exports of [vm1],
    evaluated.  When the engine refuses the commit with [APIError 500], the
    caller sees [UnboundLocalError] for [image_tar_name]; when the transfer
    of the written archive fails, the caller sees the [TypeError] of the
    call of [_cleanup_migration].  In both runs the original failure is
    lost and neither the archive nor the committed image is removed. *)
Theorem migrate_rollback_loses_failure :
  let commit_run :=
    migrate_disk_and_power_off commit_fails_world default_conf vm1 "host2"
      small_flavor (Some ["vif0"%string]) 0 0 [] in
  let transfer_run :=
    migrate_disk_and_power_off transfer_fails_world default_conf vm1 "host2"
      small_flavor (Some ["vif0"%string]) 0 0 [] in
  fst commit_run = Raise (UnboundLocalError "image_tar_name") /\
  filter is_rollback_cleanup (snd commit_run) = [] /\
  fst transfer_run
  = Raise (TypeError
             "_cleanup_migration() got multiple values for keyword argument 'image_name'") /\
  filter is_rollback_cleanup (snd transfer_run) = [] /\
  In (Call (File_write
              "/var/lib/nova/instances/snapshots/migrate_src/vm1.tar"
              "tar-data") (Ok tt))
     (snd transfer_run) /\
  In (Call (Docker_commit (Some "c1"%string) "vm1" "latest") (Ok tt))
     (snd transfer_run).
Proof.
  cbv zeta. repeat split; try reflexivity.
  - vm_compute. tauto.
  - vm_compute. tauto.
Qed.

(** ** Spawn: failure of the network setup *)

Section Issues.

Variable w : World.
Variable P : call -> Prop.

Lemma issues_ret {A} (a : A) : issues P (ret a).
Proof. intros tr tr' r [= <- <-]. now exists []. Qed.

Lemma issues_raise {A} (e : exn) : issues P (raise (A := A) e).
Proof. intros tr tr' r [= <- <-]. now exists []. Qed.

Lemma issues_bind {A B} (m : M A) (k : A -> M B) :
  issues P m -> (forall a, issues P (k a)) -> issues P (bind m k).
Proof.
  intros Hm Hk tr tr' r. unfold bind.
  destruct (m tr) as [[a|e] tr1] eqn:E;
    destruct (Hm _ _ _ E) as (new1 & -> & H1).
  - intros Hr. destruct (Hk a _ _ _ Hr) as (new2 & -> & H2).
    exists (new2 ++ new1). split; [now rewrite app_assoc|].
    now apply Forall_app.
  - intros [= <- <-]. now exists new1.
Qed.

Lemma issues_perform {A} (e : event (Res A)) :
  (forall answer, P (Call e answer)) -> issues P (perform w e).
Proof.
  intros He tr tr' r [= <- <-]. eexists [_]. split; [reflexivity|].
  constructor; [apply He|constructor].
Qed.

Lemma issues_query {A} (e : event A) :
  (forall answer, P (Call e answer)) -> issues P (query w e).
Proof.
  intros He tr tr' r [= <- <-]. eexists [_]. split; [reflexivity|].
  constructor; [apply He|constructor].
Qed.

Lemma issues_for_each {A} (l : list A) (body : A -> M unit) :
  (forall x, issues P (body x)) -> issues P (for_each l body).
Proof.
  intros Hbody. induction l as [|x l IH]; simpl.
  - apply issues_ret.
  - apply issues_bind; [apply Hbody|intros _; exact IH].
Qed.

Lemma issues_iterate (network_info : NetworkInfo) :
  issues P (iterate network_info).
Proof.
  destruct network_info; [apply issues_ret|apply issues_raise].
Qed.

End Issues.








(** That spawn call by call (newest first). *)
Example spawn_network_failure_run :
  map (fun c => match c with
                | Call e _ =>
                    match e with
                    | Docker_kill _ => "kill"
                    | Docker_remove_container _ _ _ => "remove"
                    | Docker_update_start _ => "start"
                    | Docker_create_container _ => "create"
                    | Vif_plug _ _ => "plug"
                    | _ => "-"
                    end
                end%string)
    (snd (spawn plug_fails_world default_conf message_of vm1 (Some plain_image)
            (Some ["vif0"%string]) []))
  = ["kill"; "plug"; "start"; "-"; "-"; "create"; "-"; "-"]%string.
Proof. reflexivity. Qed.

(** * Further properties of the driver *)

(** ** Identity resolver *)

(** The [except errors.APIError] clause of the resolver lets no [404]
    through, whatever the guarded body does. *)
Lemma except_404_absorbs {A} (body : M (option A)) (tr tr' : trace) (e : exn) :
  try_except body
    (fun e => match e with
              | APIError status_code _ =>
                  if status_code =? 404 then ret None else raise e
              | _ => raise e
              end) tr = (Raise e, tr') ->
  forall explanation, e <> APIError 404 explanation.
Proof.
  unfold try_except. destruct (body tr) as [[r|e0] t0]; [discriminate|].
  destruct e0 as [code expl| | | | | | | | | | | | | | |];
    unfold raise, ret; try (intros [= <- <-]; discriminate).
  destruct (code =? 404) eqn:E; [discriminate|].
  intros [= <- <-] explanation [= -> _]. discriminate.
Qed.

(** X1. A not-found answer of the engine never escapes the resolver: no run
    of [_find_container_by_name] raises [APIError 404].  A [404] on the
    listing gives the empty record, and any other [APIError] on the listing
    is raised unchanged. *)
Theorem find_container_by_name_maps_404 (w : World) (name : string)
    (tr : trace) :
  let listing := Docker_containers true (Some name) in
  (forall (e : exn) (tr' : trace),
     _find_container_by_name w name tr = (Raise e, tr') ->
     forall explanation, e <> APIError 404 explanation) /\
  (forall explanation,
     w _ tr listing = Raise (APIError 404 explanation) ->
     _find_container_by_name w name tr
     = (Ok None, Call listing (Raise (APIError 404 explanation)) :: tr)) /\
  (forall status_code explanation,
     status_code <> 404 ->
     w _ tr listing = Raise (APIError status_code explanation) ->
     _find_container_by_name w name tr
     = (Raise (APIError status_code explanation),
        Call listing (Raise (APIError status_code explanation)) :: tr)).
Proof.
  intros listing. subst listing. split; [|split].
  - intros e tr' H. unfold _find_container_by_name in H.
    unfold bind at 1 in H.
    match type of H with
    | context [try_except ?b ?h tr] =>
        destruct (try_except b h tr) as [[r|e0] t0] eqn:E
    end.
    + destruct r; discriminate.
    + injection H as <- <-. exact (except_404_absorbs _ _ E).
  - intros explanation H.
    unfold _find_container_by_name, bind, try_except, perform. cbn zeta.
    rewrite H. reflexivity.
  - intros status_code explanation Hcode H.
    unfold _find_container_by_name, bind, try_except, perform. cbn zeta.
    rewrite H. apply Z.eqb_neq in Hcode. now rewrite Hcode.
Qed.

Lemma find_container_by_name_maps_404_witness :
  _find_container_by_name not_found_world "vm1" []
  = (Ok None,
     [Call (Docker_containers true (Some "vm1"%string))
        (Raise (APIError 404 "no such container"))]) /\
  _find_container_by_name engine_error_world "vm1" []
  = (Raise (APIError 500 "server error"),
     [Call (Docker_containers true (Some "vm1"%string))
        (Raise (APIError 500 "server error"))]) /\
  APIError 500 "server error" <> APIError 404 "server error".
Proof.
  pose proof (find_container_by_name_maps_404 not_found_world "vm1" [])
    as (_ & Hnone & _).
  pose proof (find_container_by_name_maps_404 engine_error_world "vm1" [])
    as (Hnever & _ & Hraise).
  split; [exact (Hnone _ eq_refl)|].
  split; [exact (Hraise 500 _ ltac:(discriminate) eq_refl)|].
  exact (Hnever _ _ (Hraise 500 _ ltac:(discriminate) eq_refl) _).
Defined.

(** A returned inspection comes from the first entry whose first name,
    without its leading character, is the name looked for. *)
Lemma find_by_name_loop_found (w : World) (name : string)
    (containers : list (option ContainerSummary)) (tr tr' : trace)
    (info : option InspectInfo) :
  _find_container_by_name_loop w name containers tr = (Ok (Some info), tr') ->
  exists before ct after n0 names,
    containers = before ++ Some ct :: after /\
    ct_Names ct = n0 :: names /\
    drop_first n0 = name /\
    (forall c m ms, In (Some c) before -> ct_Names c = m :: ms ->
                    drop_first m <> name) /\
    tr' = Call (Docker_inspect_container (ct_Id ct)) (Ok info) :: tr.
Proof.
  induction containers as [|[c|] rest IH]; simpl.
  - discriminate.
  - destruct (ct_Names c) as [|n0 names] eqn:En; [discriminate|].
    destruct (String.eqb (drop_first n0) name) eqn:Eq.
    + unfold bind, perform, ret. cbn zeta.
      destruct (w _ tr (Docker_inspect_container (ct_Id c))) as [i|e] eqn:Ei;
        [|discriminate].
      intros [= <- <-]. exists [], c, rest, n0, names.
      apply String.eqb_eq in Eq. repeat split; try assumption.
      intros c0 m ms [].
    + intros H. destruct (IH H) as (before & ct & after & m0 & ms0 & -> & Hn
                                     & Hm & Hbefore & ->).
      exists (Some c :: before), ct, after, m0, ms0.
      repeat split; try assumption.
      intros c0 m ms [[= <-]|Hin] Hnames.
      * rewrite En in Hnames. injection Hnames as <- <-.
        now apply String.eqb_neq.
      * now apply (Hbefore c0 m ms).
  - intros H. destruct (IH H) as (before & ct & after & m0 & ms0 & -> & Hn
                                   & Hm & Hbefore & ->).
    exists (None :: before), ct, after, m0, ms0.
    repeat split; try assumption.
    intros c0 m ms [[=]|Hin] Hnames. now apply (Hbefore c0 m ms).
Qed.

(** X2. The resolver matches names exactly and takes the first match: when
    [_find_container_by_name] returns a non-empty record, the engine's
    listing holds an entry whose first name without its leading character
    equals the name, no earlier entry does, and the record is the answer to
    the inspection of that entry's id; the listing and that inspection are
    the only calls. *)
Theorem find_container_by_name_exact (w : World) (name : string)
    (tr tr' : trace) (info : InspectInfo) :
  _find_container_by_name w name tr = (Ok (Some info), tr') ->
  exists containers before ct after n0 names,
    w _ tr (Docker_containers true (Some name)) = Ok containers /\
    containers = before ++ Some ct :: after /\
    ct_Names ct = n0 :: names /\
    drop_first n0 = name /\
    (forall c m ms, In (Some c) before -> ct_Names c = m :: ms ->
                    drop_first m <> name) /\
    tr' = Call (Docker_inspect_container (ct_Id ct)) (Ok (Some info))
            :: Call (Docker_containers true (Some name)) (Ok containers)
            :: tr.
Proof.
  unfold _find_container_by_name, bind, try_except, perform. cbn zeta.
  destruct (w _ tr (Docker_containers true (Some name))) as [cts|e] eqn:El.
  - destruct (_find_container_by_name_loop w name cts _)
      as [[[r|]|e] t] eqn:Eloop.
    + unfold ret. intros [= -> <-].
      destruct (find_by_name_loop_found _ _ _ _ Eloop)
        as (before & ct & after & n0 & names & H1 & H2 & H3 & H4 & H5).
      exists cts, before, ct, after, n0, names. now repeat split.
    + discriminate.
    + destruct e as [code expl| | | | | | | | | | | | | | |];
        try discriminate.
      destruct (code =? 404); discriminate.
  - destruct e as [code expl| | | | | | | | | | | | | | |]; try discriminate.
    destruct (code =? 404); discriminate.
Qed.

Lemma find_container_by_name_exact_witness :
  _find_container_by_name collision_world "vm1" []
  = (Ok (Some (inspected "c1")),
     [Call (Docker_inspect_container "c1") (Ok (Some (inspected "c1")));
      Call (Docker_containers true (Some "vm1"%string))
        (Ok collision_listing)]) /\
  exists containers before ct after n0 names,
    collision_world [] (Docker_containers true (Some "vm1"%string))
    = Ok containers /\
    containers = before ++ Some ct :: after /\
    ct_Names ct = n0 :: names /\
    drop_first n0 = "vm1"%string /\
    (forall c m ms, In (Some c) before -> ct_Names c = m :: ms ->
                    drop_first m <> "vm1"%string) /\
    [Call (Docker_inspect_container "c1") (Ok (Some (inspected "c1")));
     Call (Docker_containers true (Some "vm1"%string))
       (Ok collision_listing)]
    = Call (Docker_inspect_container (ct_Id ct)) (Ok (Some (inspected "c1")))
        :: Call (Docker_containers true (Some "vm1"%string)) (Ok containers)
        :: [].
Proof.
  split; [reflexivity|].
  exact (@find_container_by_name_exact collision_world "vm1" [] _
           (inspected "c1") eq_refl).
Defined.

(** On a listing that [list_instances] gets through, the loop of
    [_exist_container] returns whether the name is among the listed
    ones. *)
Lemma list_instances_loop_spec
    (containers : list (option ContainerSummary)) (names : list string)
    (tr tr' : trace) :
  list_instances_loop containers tr = (Ok names, tr') ->
  tr' = tr /\
  length names = length containers /\
  forall (name : string) (tr2 : trace),
    _exist_container_loop name containers tr2
    = (Ok (existsb (fun n => String.eqb n name) names), tr2).
Proof.
  revert names. induction containers as [|[c|] rest IH]; intros names; simpl.
  - intros [= <- <-]. now repeat split.
  - destruct (ct_Names c) as [|n0 ns]; [discriminate|].
    unfold bind, ret.
    destruct (list_instances_loop rest tr) as [[res|e] t] eqn:E;
      [|discriminate].
    intros [= <- <-]. destruct (IH res eq_refl) as (-> & Hlen & Hex).
    repeat split; [simpl; now rewrite Hlen|].
    intros name tr2. simpl.
    destruct (String.eqb (drop_first n0) name); [reflexivity|apply Hex].
  - discriminate.
Qed.

(** X3. [list_instances] and [_exist_container] agree: when
    [list_instances] returns the names of a listing (one name per listed
    container, in order), [_exist_container] asked about the same listing
    returns true exactly for the names in that list. *)
Theorem exist_container_agrees_with_list_instances (w : World)
    (name : string) (names : list string) (tr tr1 tr2 : trace) :
  list_instances w tr = (Ok names, tr1) ->
  w _ tr2 (Docker_containers true None)
  = w _ tr (Docker_containers true None) ->
  (exists containers,
     w _ tr (Docker_containers true None) = Ok containers /\
     length names = length containers /\
     tr1 = Call (Docker_containers true None) (Ok containers) :: tr) /\
  fst (_exist_container w name tr2)
  = Ok (existsb (fun n => String.eqb n name) names).
Proof.
  unfold list_instances, _exist_container, bind, perform. cbn zeta.
  intros Hlist Hsame. rewrite Hsame.
  destruct (w _ tr (Docker_containers true None)) as [cts|e];
    [|discriminate].
  destruct (list_instances_loop_spec _ _ Hlist) as (-> & Hlen & Hex).
  split; [now exists cts|]. now rewrite Hex.
Qed.

Lemma exist_container_agrees_with_list_instances_witness :
  list_instances collision_world []
  = (Ok ["vm10"; "vm1"]%string,
     [Call (Docker_containers true None) (Ok collision_listing)]) /\
  fst (_exist_container collision_world "vm1" []) = Ok true /\
  fst (_exist_container collision_world "vm" []) = Ok false.
Proof.
  split; [reflexivity|]. split.
  - exact (proj2 (@exist_container_agrees_with_list_instances collision_world
                    "vm1" _ [] _ [] eq_refl eq_refl)).
  - exact (proj2 (@exist_container_agrees_with_list_instances collision_world
                    "vm" _ [] _ [] eq_refl eq_refl)).
Defined.

Lemma container_is_running_loop_found (name : string)
    (containers : list (option ContainerSummary)) (tr tr' : trace)
    (running : bool) :
  container_is_running_loop name containers tr = (Ok (Some running), tr') ->
  tr' = tr /\
  exists before ct after n0 names,
    containers = before ++ Some ct :: after /\
    ct_Names ct = n0 :: names /\
    drop_first n0 = name /\
    (forall c m ms, In (Some c) before -> ct_Names c = m :: ms ->
                    drop_first m <> name) /\
    running = str_contains "Up" (ct_Status ct).
Proof.
  induction containers as [|[c|] rest IH]; simpl.
  - discriminate.
  - destruct (ct_Names c) as [|n0 names] eqn:En; [discriminate|].
    destruct (String.eqb (drop_first n0) name) eqn:Eq.
    + apply String.eqb_eq in Eq. intros H.
      assert (Hr : tr' = tr /\ running = str_contains "Up" (ct_Status c))
        by (destruct (str_contains "Up" (ct_Status c));
            injection H as <- <-; now split).
      destruct Hr as [-> ->]. split; [reflexivity|].
      exists [], c, rest, n0, names. repeat split; try assumption.
      intros c0 m ms [].
    + intros H. destruct (IH H) as (-> & before & ct & after & m0 & ms0 & ->
                                     & Hn & Hm & Hbefore & ->).
      split; [reflexivity|].
      exists (Some c :: before), ct, after, m0, ms0.
      repeat split; try assumption.
      intros c0 m ms [[= <-]|Hin] Hnames.
      * rewrite En in Hnames. injection Hnames as <- <-.
        now apply String.eqb_neq.
      * now apply (Hbefore c0 m ms).
  - intros H. destruct (IH H) as (-> & before & ct & after & m0 & ms0 & ->
                                   & Hn & Hm & Hbefore & ->).
    split; [reflexivity|].
    exists (None :: before), ct, after, m0, ms0.
    repeat split; try assumption.
    intros c0 m ms [[=]|Hin] Hnames. now apply (Hbefore c0 m ms).
Qed.

(** X4. [ContainerUtils.container_is_running] answers from the listing
    alone: when it returns a boolean, the listing holds an entry whose first
    name without its leading character equals the instance's name, no
    earlier entry does, the boolean says whether that entry's status
    contains [Up], and the listing is the only call issued. *)
Theorem container_is_running_first_match (w : World) (instance : Instance)
    (tr tr' : trace) (running : bool) :
  container_is_running w instance tr = (Ok (Some running), tr') ->
  exists containers before ct after n0 names,
    w _ tr (Docker_containers true (Some (inst_name instance)))
    = Ok containers /\
    containers = before ++ Some ct :: after /\
    ct_Names ct = n0 :: names /\
    drop_first n0 = inst_name instance /\
    (forall c m ms, In (Some c) before -> ct_Names c = m :: ms ->
                    drop_first m <> inst_name instance) /\
    running = str_contains "Up" (ct_Status ct) /\
    tr' = Call (Docker_containers true (Some (inst_name instance)))
            (Ok containers) :: tr.
Proof.
  unfold container_is_running, bind, try_except, perform. cbn zeta.
  destruct (w _ tr (Docker_containers true (Some (inst_name instance))))
    as [cts|e] eqn:El.
  - destruct (container_is_running_loop (inst_name instance) cts _)
      as [[[r|]|e] t] eqn:Eloop.
    + intros [= -> <-].
      destruct (container_is_running_loop_found _ _ _ Eloop)
        as (-> & before & ct & after & n0 & names & H1 & H2 & H3 & H4 & H5).
      exists cts, before, ct, after, n0, names. now repeat split.
    + discriminate.
    + destruct e as [code expl| | | | | | | | | | | | | | |];
        try discriminate.
      destruct (code =? 404); discriminate.
  - destruct e as [code expl| | | | | | | | | | | | | | |]; try discriminate.
    destruct (code =? 404); discriminate.
Qed.

Lemma container_is_running_first_match_witness :
  container_is_running collision_world vm1 []
  = (Ok (Some true),
     [Call (Docker_containers true (Some "vm1"%string))
        (Ok collision_listing)]) /\
  exists containers before ct after n0 names,
    collision_world [] (Docker_containers true (Some (inst_name vm1)))
    = Ok containers /\
    containers = before ++ Some ct :: after /\
    ct_Names ct = n0 :: names /\
    drop_first n0 = inst_name vm1 /\
    (forall c m ms, In (Some c) before -> ct_Names c = m :: ms ->
                    drop_first m <> inst_name vm1) /\
    true = str_contains "Up" (ct_Status ct) /\
    [Call (Docker_containers true (Some "vm1"%string))
       (Ok collision_listing)]
    = Call (Docker_containers true (Some (inst_name vm1))) (Ok containers)
        :: [].
Proof.
  split; [reflexivity|].
  exact (@container_is_running_first_match collision_world vm1 [] _ true
           eq_refl).
Defined.

(** ** Lifecycle controller *)

(** A loop of one call per VIF in which every call returns. *)
Lemma for_each_all_return (w : World) (call_of : Vif -> event (Res unit))
    (vifs : list Vif) (tr : trace) :
  (forall t vif, In vif vifs -> w _ t (call_of vif) = Ok tt) ->
  for_each vifs (fun vif => perform w (call_of vif)) tr
  = (Ok tt, vif_calls call_of vifs ++ tr).
Proof.
  unfold vif_calls. revert tr.
  induction vifs as [|v vifs IH]; intros tr Hok; simpl; [reflexivity|].
  unfold bind, perform. cbn zeta. rewrite (Hok tr v (or_introl eq_refl)).
  rewrite IH by (intros t vif Hin; apply Hok; now right).
  now rewrite <- app_assoc.
Qed.

(** A loop of one call per VIF stops at the first call that raises. *)
Lemma for_each_stops (w : World) (call_of : Vif -> event (Res unit))
    (plugged : list Vif) (failing : Vif) (rest : list Vif) (e : exn)
    (tr : trace) :
  (forall t vif, In vif plugged -> w _ t (call_of vif) = Ok tt) ->
  w _ (vif_calls call_of plugged ++ tr) (call_of failing) = Raise e ->
  for_each (plugged ++ failing :: rest) (fun vif => perform w (call_of vif)) tr
  = (Raise e,
     Call (call_of failing) (Raise e) :: vif_calls call_of plugged ++ tr).
Proof.
  unfold vif_calls. revert tr.
  induction plugged as [|v plugged IH]; intros tr Hok Hfail; simpl in *.
  - unfold bind, perform. cbn zeta. now rewrite Hfail.
  - unfold bind at 1, perform at 1. cbn zeta.
    rewrite (Hok tr v (or_introl eq_refl)).
    rewrite <- app_assoc in *. simpl in *.
    apply IH; [intros t vif Hin; apply Hok; now right|exact Hfail].
Qed.

(** X5. [plug_vifs] plugs the VIFs in the order of [network_info] and stops
    at the first one whose plug raises: the VIFs before it have been
    plugged, the ones after it are not touched, and the exception is raised
    unchanged. *)
Theorem plug_vifs_stops_at_first_failure (w : World) (instance : Instance)
    (plugged : list Vif) (failing : Vif) (rest : list Vif) (e : exn)
    (tr : trace) :
  (forall t vif, In vif plugged -> w _ t (Vif_plug instance vif) = Ok tt) ->
  w _ (vif_calls (Vif_plug instance) plugged ++ tr) (Vif_plug instance failing)
  = Raise e ->
  plug_vifs w instance (Some (plugged ++ failing :: rest)) tr
  = (Raise e,
     Call (Vif_plug instance failing) (Raise e)
       :: vif_calls (Vif_plug instance) plugged ++ tr).
Proof.
  intros Hok Hfail. unfold plug_vifs, iterate, bind at 1, ret.
  now apply for_each_stops.
Qed.

Lemma plug_vifs_stops_at_first_failure_witness :
  plug_vifs second_vif_fails_world vm1
    (Some ["vif0"; "vif1"; "vif2"]%string) []
  = (Raise (ProcessExecutionError "no bridge"),
     [Call (Vif_plug vm1 "vif1"%string)
        (Raise (ProcessExecutionError "no bridge"));
      Call (Vif_plug vm1 "vif0"%string) (Ok tt)]).
Proof.
  apply (@plug_vifs_stops_at_first_failure second_vif_fails_world vm1
           ["vif0"%string] "vif1"%string ["vif2"%string]
           (ProcessExecutionError "no bridge") []).
  - intros t vif [<-|[]]. reflexivity.
  - reflexivity.
Defined.

(** X6. [_network_delete] is best effort: it returns normally whatever its
    collaborators do.  In particular, when the namespace teardown raises,
    the exception is dropped and no VIF is unplugged. *)
Theorem network_delete_never_raises (w : World) (instance : Instance)
    (network_info : NetworkInfo) (container_id : string) (tr : trace) :
  fst (_network_delete w instance network_info container_id tr) = Ok tt /\
  (forall e,
     w _ tr (Network_teardown_network container_id) = Raise e ->
     _network_delete w instance network_info container_id tr
     = (Ok tt, Call (Network_teardown_network container_id) (Raise e) :: tr)).
Proof.
  unfold _network_delete, try_except. split.
  - match goal with
    | |- fst (let (r, tr') := ?b tr in _) = _ =>
        destruct (b tr) as [[[]|e] t]
    end; reflexivity.
  - intros e He. unfold bind, perform. cbn zeta. now rewrite He.
Qed.

Lemma network_delete_never_raises_witness :
  _network_delete teardown_fails_world vm1 (Some ["vif0"%string]) "c1" []
  = (Ok tt,
     [Call (Network_teardown_network "c1")
        (Raise (ProcessExecutionError "netns busy"))]).
Proof.
  exact (proj2 (network_delete_never_raises teardown_fails_world vm1
                  (Some ["vif0"%string]) "c1" [])
           (ProcessExecutionError "netns busy") eq_refl).
Defined.

(** X7. [cleanup] of an instance without a container is not a no-op: it
    unplugs every VIF of [network_info], in order, and issues no other call
    after the lookup; with [network_info] being [None] it raises the
    [TypeError] of iterating over [None]. *)
Theorem cleanup_absent_unplugs (w : World) (instance : Instance)
    (container_id : option string) (tr tr1 : trace) :
  _get_container_id w instance tr = (Ok container_id, tr1) ->
  truthy container_id = None ->
  (forall vifs,
     (forall t vif, In vif vifs -> w _ t (Vif_unplug instance vif) = Ok tt) ->
     cleanup w instance (Some vifs) tr
     = (Ok tt, vif_calls (Vif_unplug instance) vifs ++ tr1)) /\
  cleanup w instance None tr
  = (Raise (TypeError "'NoneType' object is not iterable"), tr1).
Proof.
  intros Hid Habsent. split.
  - intros vifs Hok. unfold cleanup, bind at 1. rewrite Hid, Habsent.
    unfold unplug_vifs, iterate, bind at 1, ret.
    now apply for_each_all_return.
  - unfold cleanup, bind at 1. now rewrite Hid, Habsent.
Qed.

Lemma cleanup_absent_unplugs_witness :
  cleanup vm10_world vm1 (Some ["vif0"; "vif1"]%string) []
  = (Ok tt,
     [Call (Vif_unplug vm1 "vif1"%string) (Ok tt);
      Call (Vif_unplug vm1 "vif0"%string) (Ok tt)] ++ vm10_listing) /\
  cleanup vm10_world vm1 None []
  = (Raise (TypeError "'NoneType' object is not iterable"), vm10_listing).
Proof.
  pose proof (@cleanup_absent_unplugs vm10_world vm1 None [] vm10_listing
                eq_refl eq_refl) as [Hsome Hnone].
  split; [|exact Hnone].
  apply (Hsome ["vif0"; "vif1"]%string). reflexivity.
Defined.

(** X8. [_stop_container] retries only a paused container.  A failure of
    the stop that is not an [APIError] whose explanation contains [Unpause
    the container before stopping] is raised unchanged after that single
    call.  With that explanation the container is unpaused and stopped
    again, this time with the caller's timeout as given (not raised to the
    minimum of 5 that the first attempt uses), and the outcome is the one
    of the second stop. *)
Theorem stop_container_retries_paused (w : World) (container_id : string)
    (instance : Instance) (timeout : Z) (tr : trace) :
  let first := Docker_stop container_id (Z.max timeout 5) in
  let hint := "Unpause the container before stopping"%string in
  (forall e,
     w _ tr first = Raise e ->
     (forall status_code explanation,
        e = APIError status_code explanation ->
        str_contains hint explanation = false) ->
     _stop_container w container_id instance timeout tr
     = (Raise e, Call first (Raise e) :: tr)) /\
  (forall status_code explanation,
     let refused := Call first (Raise (APIError status_code explanation)) in
     let unpaused := Call (Docker_unpause container_id) (Ok tt) in
     w _ tr first = Raise (APIError status_code explanation) ->
     str_contains hint explanation = true ->
     w _ (refused :: tr) (Docker_unpause container_id) = Ok tt ->
     _stop_container w container_id instance timeout tr
     = (w _ (unpaused :: refused :: tr) (Docker_stop container_id timeout),
        Call (Docker_stop container_id timeout)
          (w _ (unpaused :: refused :: tr) (Docker_stop container_id timeout))
          :: unpaused :: refused :: tr)).
Proof.
  intros first hint. subst first hint. split.
  - intros e He Hother.
    unfold _stop_container, try_except, perform. cbn zeta. rewrite He.
    destruct e as [code expl| | | | | | | | | | | | | | |]; try reflexivity.
    now rewrite (Hother code expl eq_refl).
  - intros status_code explanation refused unpaused He Hhint Hunpause.
    subst refused unpaused.
    unfold _stop_container, try_except, perform at 1. cbn zeta. rewrite He.
    rewrite Hhint. cbn [negb].
    unfold bind, perform. cbn zeta. now rewrite Hunpause.
Qed.

Lemma stop_container_retries_paused_witness :
  _stop_container paused_world "c1" vm1 0 []
  = (Ok tt,
     [Call (Docker_stop "c1" 0) (Ok tt);
      Call (Docker_unpause "c1") (Ok tt);
      Call (Docker_stop "c1" 5)
        (Raise (APIError 500 "Unpause the container before stopping"))]) /\
  _stop_container stop_fails_world "c1" vm1 10 []
  = (Raise (APIError 500 "cannot stop"),
     [Call (Docker_stop "c1" 10) (Raise (APIError 500 "cannot stop"))]).
Proof.
  split.
  - exact (proj2 (stop_container_retries_paused paused_world "c1" vm1 0 [])
             500 "Unpause the container before stopping"%string
             eq_refl eq_refl eq_refl).
  - apply (proj1 (stop_container_retries_paused stop_fails_world "c1" vm1
                    10 [])).
    + reflexivity.
    + intros status_code explanation [= _ <-]. reflexivity.
Defined.

(** X9. When stopping the container fails, [destroy], [reboot],
    [power_off] and [confirm_migration] end there with the exception of the
    stop: nothing is removed, torn down or restarted. *)
Theorem stop_failure_aborts (w : World) (conf : Config)
    (str : exn -> string) (instance : Instance)
    (network_info : NetworkInfo) (timeout retry_interval : Z)
    (found : option string) (container_id : string) (e : exn)
    (tr tr1 tr2 : trace) :
  _get_container_id w instance tr = (Ok found, tr1) ->
  truthy found = Some container_id ->
  _stop_container w container_id instance 10 tr1 = (Raise e, tr2) ->
  destroy w conf instance network_info tr = (Raise e, tr2) /\
  reboot w conf str instance network_info tr = (Raise e, tr2) /\
  power_off w instance timeout retry_interval tr = (Raise e, tr2) /\
  confirm_migration w conf instance network_info tr = (Raise e, tr2).
Proof.
  intros Hid Hfound Hstop.
  unfold destroy, reboot, power_off, confirm_migration, _cleanup_resize.
  repeat split; unfold bind at 1; rewrite Hid, Hfound;
    try (unfold bind at 1); now rewrite Hstop.
Qed.

Lemma stop_failure_aborts_witness :
  destroy stop_fails_world default_conf vm1 (Some ["vif0"%string]) []
  = (Raise (APIError 500 "cannot stop"),
     [Call (Docker_stop "c1" 10) (Raise (APIError 500 "cannot stop"));
      Call (Docker_inspect_container "c1") (Ok (Some (inspected "c1")));
      Call (Docker_containers true (Some "vm1"%string))
        (Ok collision_listing)]).
Proof.
  exact (proj1 (@stop_failure_aborts stop_fails_world default_conf
      message_of vm1
                  (Some ["vif0"%string]) 0 0 (Some "c1"%string) "c1"%string
                  (APIError 500 "cannot stop") [] _ _
                  eq_refl eq_refl eq_refl)).
Defined.

Lemma issues_try_except {A} (P : call -> Prop) (body : M A)
    (handler : exn -> M A) :
  issues P body -> (forall e, issues P (handler e)) ->
  issues P (try_except body handler).
Proof.
  intros Hb Hh tr tr' r. unfold try_except.
  destruct (body tr) as [[a|e] tr1] eqn:E;
    destruct (Hb _ _ _ E) as (new1 & -> & H1).
  - intros [= <- <-]. now exists new1.
  - intros Hr. destruct (Hh e _ _ _ Hr) as (new2 & -> & H2).
    exists (new2 ++ new1). split; [now rewrite app_assoc|].
    now apply Forall_app.
Qed.

Lemma issues_weaken {A} (P Q : call -> Prop) (m : M A) :
  (forall c, P c -> Q c) -> issues P m -> issues Q m.
Proof.
  intros HPQ Hm tr tr' r H. destruct (Hm _ _ _ H) as (new & -> & Hnew).
  exists new. split; [reflexivity|]. revert Hnew. now apply Forall_impl.
Qed.

(** The identity lookup issues lookups only. *)
Lemma get_container_id_issues_lookups (w : World) (instance : Instance) :
  issues (fun c => is_lookup c = true) (_get_container_id w instance).
Proof.
  intros tr tr' r H. exact (get_container_id_trace w instance tr H).
Qed.

Lemma exist_container_loop_issues (P : call -> Prop) (name : string)
    (containers : list (option ContainerSummary)) :
  issues P (_exist_container_loop name containers).
Proof.
  induction containers as [|[c|] rest IH]; simpl.
  - apply issues_ret.
  - destruct (ct_Names c) as [|n0 ns]; [apply issues_raise|].
    destruct (String.eqb (drop_first n0) name); [apply issues_ret|exact IH].
  - apply issues_raise.
Qed.

Lemma join_cpu_numbers_issues (P : call -> Prop) (cpus : list string) :
  issues P (join_cpu_numbers cpus).
Proof.
  destruct cpus; [apply issues_raise|apply issues_ret].
Qed.

(** Starting a container (lines 527-545) involves no network call. *)
Lemma start_container_launch_issues (w : World) (conf : Config)
    (container_id : string) (instance : Instance)
    (network_info : NetworkInfo) :
  issues (fun c => network_setup_call c = false)
    (_start_container_launch w conf container_id instance network_info).
Proof.
  unfold _start_container_launch, find_dns_list, _get_cpu_set,
    _exist_container.
  apply issues_bind.
  { apply issues_bind; [now apply issues_perform|intros dns].
    apply issues_ret. }
  intros dns. apply issues_bind.
  { destruct (is_cpuset_or_mix (docker_cpu_mode conf)).
    - apply issues_bind; [now apply issues_perform|intros _].
      apply issues_bind; [now apply issues_perform|intros _].
      apply issues_bind; [now apply issues_perform|intros cpus].
      apply issues_bind; [apply join_cpu_numbers_issues|intros set_str].
      apply issues_ret.
    - destruct (negb (String.eqb (docker_system_cpuset conf) "-1"));
        [|apply issues_ret].
      apply issues_bind; [now apply issues_perform|intros _].
      apply issues_bind; [now apply issues_perform|intros cpus].
      apply issues_bind; [apply join_cpu_numbers_issues|intros set_str].
      apply issues_ret. }
  intros cpuset. apply issues_bind.
  { apply issues_bind; [now apply issues_perform|intros cts].
    apply exist_container_loop_issues. }
  intros exist. now apply issues_perform.
Qed.

(** X10. [restore] never sets up the network: whatever happens, it plugs
    and attaches no VIF, runs no command and kills nothing; the container
    comes back started but unwired. *)
Theorem restore_skips_network (w : World) (conf : Config)
    (str : exn -> string)
    (instance : Instance) (tr tr' : trace) (r : Res unit) :
  restore w conf str instance tr = (r, tr') ->
  exists new,
    tr' = new ++ tr /\ Forall (fun c => network_setup_call c = false) new.
Proof.
  revert tr tr' r. change (issues (fun c => network_setup_call c = false)
                             (restore w conf str instance)).
  unfold restore. apply issues_bind.
  - apply issues_weaken with (P := fun c => is_lookup c = true);
      [|apply get_container_id_issues_lookups].
    intros [T e a]; simpl. destruct e; simpl; congruence.
  - intros found. destruct (truthy found) as [container_id|];
      [|apply issues_ret].
    unfold _start_container. apply issues_bind.
    + apply start_container_launch_issues.
    + intros _. unfold _start_container_network. simpl. apply issues_ret.
Qed.

Lemma restore_skips_network_witness :
  restore collision_world default_conf message_of vm1 []
  = (Ok tt,
     [Call (Docker_update_start
              {| us_container := "c1"; us_mem_limit := 536870912;
                 us_network_mode := "none"; us_privileged := true;
                 us_dns := None; us_cpu_shares := None; us_cpuset := None;
                 us_volumes_from := None |}) (Ok tt);
      Call (Docker_containers true None) (Ok collision_listing);
      Call (Network_find_dns None) (Ok []);
      Call (Docker_inspect_container "c1") (Ok (Some (inspected "c1")));
      Call (Docker_containers true (Some "vm1"%string))
        (Ok collision_listing)]) /\
  exists new,
    snd (restore collision_world default_conf message_of vm1 []) = new ++ [] /\
    Forall (fun c => network_setup_call c = false) new.
Proof.
  split; [reflexivity|].
  exact (@restore_skips_network collision_world default_conf
      message_of vm1 [] _ _
           (surjective_pairing _)).
Defined.

(** ** Reported state *)

Lemma cpu_shares_by_mode_aux (conf : Config) (instance : Instance) :
  (docker_cpu_mode conf = "cpushare"%string ->
   _get_cpu_shares conf instance = None) /\
  (docker_cpu_mode conf = "cpuset"%string \/
   docker_cpu_mode conf = "mix"%string ->
   _get_cpu_shares conf instance
   = Some (vcpus (inst_flavor instance) * 1024)).
Proof.
  unfold _get_cpu_shares, is_cpuset_or_mix.
  split; [intros ->|intros [-> | ->]]; reflexivity.
Qed.

(** X11. [get_info] gives back the resource plan: for a container whose
    inspected memory and CPU shares are the ones the driver computes for the
    instance, the reported memory (and maximum memory) is the flavor's
    memory limit in bytes, the reported CPU count is the flavor's vcpu count
    in [cpuset] and [mix] mode and 0 in [cpushare] mode (where no shares are
    set), the CPU time is 0, and the state is [RUNNING] exactly when the
    engine reports the container running. *)
Theorem get_info_reports_plan (w : World) (conf : Config)
    (instance : Instance) (info : InspectInfo) (tr tr1 : trace) :
  _find_container_by_name w (inst_name instance) tr = (Ok (Some info), tr1) ->
  ii_Config_Memory info = Some (_get_memory_limit_bytes instance) ->
  ii_Config_CpuShares info = _get_cpu_shares conf instance ->
  exists reported,
    get_info w instance tr = (Ok reported, tr1) /\
    info_mem reported = _get_memory_limit_bytes instance /\
    info_max_mem reported = _get_memory_limit_bytes instance /\
    info_cpu_time reported = 0 /\
    (docker_cpu_mode conf = "cpuset"%string \/
     docker_cpu_mode conf = "mix"%string ->
     info_num_cpu reported = vcpus (inst_flavor instance)) /\
    (docker_cpu_mode conf = "cpushare"%string -> info_num_cpu reported = 0) /\
    (info_state reported = RUNNING <-> ii_State_Running info = Some true).
Proof.
  intros Hfind Hmem Hcpu. unfold get_info, bind. rewrite Hfind.
  eexists. split; [reflexivity|]. cbn [info_mem info_max_mem info_cpu_time
                                          info_num_cpu info_state].
  rewrite Hmem, Hcpu. repeat split.
  - intros Hmode. rewrite (proj2 (cpu_shares_by_mode_aux conf instance) Hmode).
    apply Z.div_mul. discriminate.
  - intros Hmode. now rewrite (proj1 (cpu_shares_by_mode_aux conf instance) Hmode).
  - destruct (ii_State_Running info) as [[|]|]; [reflexivity|discriminate..].
  - intros ->. reflexivity.
Qed.

Lemma get_info_reports_plan_witness :
  get_info running_world vm1 []
  = (Ok {| info_max_mem := 536870912; info_mem := 536870912;
           info_num_cpu := 2; info_cpu_time := 0; info_state := RUNNING |},
     snd (_find_container_by_name running_world "vm1" [])).
Proof.
  destruct (@get_info_reports_plan running_world (with_cpu_mode "cpuset" "-1")
              vm1 _ [] _ eq_refl eq_refl eq_refl)
    as (reported & Hrun & _).
  rewrite Hrun. f_equal. f_equal.
  injection Hrun as <-. reflexivity.
Defined.

(** ** Spawn *)

Lemma bind_ok_inv {A B} (m : M A) (k : A -> M B) (tr tr' : trace) (b : B) :
  bind m k tr = (Ok b, tr') ->
  exists a t, m tr = (Ok a, t) /\ k a t = (Ok b, tr').
Proof.
  unfold bind. destruct (m tr) as [[a|e] t]; [|discriminate].
  intros H. now exists a, t.
Qed.

(** X12. [spawn] refuses an image whose container format is not [docker]
    before it calls anything: it raises [InstanceDeployFailure] for the
    instance, naming the format, and the call history is untouched. *)
Theorem spawn_rejects_foreign_format (w : World) (conf : Config)
    (str : exn -> string)
    (instance : Instance) (image : ImageMeta) (network_info : NetworkInfo)
    (tr : trace) :
  im_container_format image <> "docker"%string ->
  spawn w conf str instance (Some image) network_info tr
  = (Raise (InstanceDeployFailure
              ("Image container format not supported ("
                 ++ im_container_format image ++ ")")%string
              (inst_name instance)),
     tr).
Proof.
  intros Hfmt. apply String.eqb_neq in Hfmt.
  unfold spawn, spawn_create, _get_image_name, subscript, bind, ret.
  now rewrite Hfmt.
Qed.

Lemma spawn_rejects_foreign_format_witness :
  spawn empty_world default_conf
      message_of vm1 (Some ovf_image) (Some ["vif0"%string]) []
  = (Raise (InstanceDeployFailure "Image container format not supported (ovf)"
              "vm1"), []).
Proof.
  apply (@spawn_rejects_foreign_format empty_world default_conf
      message_of vm1 ovf_image
           (Some ["vif0"%string]) []).
  discriminate.
Defined.

(** What [_create_container_args] puts in the argument bag. *)
Lemma create_container_args_inv (w : World) (conf : Config)
    (instance : Instance) (image_meta : option ImageMeta)
    (image_inspect_info : option ImageInspect) (network_info : NetworkInfo)
    (args : ContainerArgs) (tr tr' : trace) :
  _create_container_args w conf instance image_meta image_inspect_info
    network_info tr = (Ok args, tr') ->
  args_hostname args = Some (inst_hostname instance) /\
  args_mem_limit args = Some (_get_memory_limit_bytes instance) /\
  args_cpu_shares args = _get_cpu_shares conf instance /\
  args_network_mode args = Some "none"%string /\
  args_privileged args = Some true /\
  args_command args = expected_command image_meta image_inspect_info /\
  args_dns args <> Some [] /\
  args_volumes_from args = None.
Proof.
  unfold _create_container_args. intros H.
  apply bind_ok_inv in H. destruct H as (cpuset & t1 & _ & H).
  apply bind_ok_inv in H. destruct H as (dns & t2 & Hdns & H).
  injection H as <- <-. cbn.
  repeat split.
  - unfold expected_command.
    destruct (property image_meta "os_command_line"); [reflexivity|].
    now destruct (image_has_cmd image_inspect_info).
  - unfold find_dns_list in Hdns.
    apply bind_ok_inv in Hdns. destruct Hdns as (l & t & _ & Hl).
    injection Hl as <- _. destruct l; discriminate.
Qed.

(** X13. The argument bag of a new container always asks for network mode
    [none] and a privileged container, carries the flavor's memory limit
    and the instance's hostname, and never carries an empty DNS list (an
    empty list is passed as unset).  Its command is the image metadata's
    [os_command_line] when that is set, whatever the image itself declares;
    otherwise it is left to the image when the image has a command, and is
    the keep-alive loop when it has none. *)
Theorem create_container_args_plan (w : World) (conf : Config)
    (instance : Instance) (image_meta : option ImageMeta)
    (image_inspect_info : option ImageInspect) (network_info : NetworkInfo)
    (args : ContainerArgs) (tr tr' : trace) :
  _create_container_args w conf instance image_meta image_inspect_info
    network_info tr = (Ok args, tr') ->
  args_network_mode args = Some "none"%string /\
  args_privileged args = Some true /\
  args_hostname args = Some (inst_hostname instance) /\
  args_mem_limit args = Some (_get_memory_limit_bytes instance) /\
  args_dns args <> Some [] /\
  (forall command_line,
     property image_meta "os_command_line" = Some command_line ->
     args_command args = Some command_line) /\
  (property image_meta "os_command_line" = None ->
   args_command args
   = if image_has_cmd image_inspect_info then None
     else Some keep_alive_command).
Proof.
  intros H. apply create_container_args_inv in H.
  destruct H as (Hhost & Hmem & _ & Hmode & Hpriv & Hcmd & Hdns & _).
  unfold expected_command in Hcmd.
  repeat split; try assumption.
  - intros command_line Hprop. now rewrite Hprop in Hcmd.
  - intros Hprop. now rewrite Hprop in Hcmd.
Qed.

Lemma create_container_args_plan_witness :
  fst (_create_container_args image_present_world default_conf vm1
         (Some init_image)
         (Some {| ImageInspect_Cmd := Some ["/usr/bin/app"%string] |})
         (Some ["vif0"%string]) [])
  = Ok planned_args /\
  args_command planned_args = Some "/sbin/init"%string /\
  args_dns planned_args <> Some [].
Proof.
  split; [reflexivity|].
  destruct (@create_container_args_plan image_present_world default_conf vm1
              (Some init_image)
              (Some {| ImageInspect_Cmd := Some ["/usr/bin/app"%string] |})
              (Some ["vif0"%string]) planned_args [] _ eq_refl)
    as (_ & _ & _ & _ & Hdns & Hcmd & _).
  split; [now apply Hcmd|exact Hdns].
Defined.

Lemma get_image_name_inv (instance : Instance) (image_meta : option ImageMeta)
    (image_name : string) (tr tr' : trace) :
  _get_image_name instance image_meta tr = (Ok image_name, tr') ->
  exists image,
    image_meta = Some image /\
    im_container_format image = "docker"%string /\
    image_name = im_name image.
Proof.
  unfold _get_image_name, subscript, bind, ret, raise.
  destruct image_meta as [image|]; [|discriminate].
  destruct (String.eqb (im_container_format image) "docker") eqn:E;
    [|discriminate].
  intros [= <- _]. exists image. apply String.eqb_eq in E. now repeat split.
Qed.

(** [_create_volume_containers] returns true exactly when a role is
    declared. *)
Lemma create_volume_containers_inv (w : World) (conf : Config)
    (instance : Instance) (image_name : string)
    (image_meta : option ImageMeta) (network_info : NetworkInfo)
    (have_vol : bool) (tr tr' : trace) :
  _create_volume_containers w conf instance image_name image_meta
    network_info tr = (Ok have_vol, tr') ->
  (have_vol = true ->
   Exists (fun rv => snd rv <> None) (declared_volumes image_meta)) /\
  (have_vol = false ->
   Forall (fun rv => snd rv = None) (declared_volumes image_meta)).
Proof.
  unfold _create_volume_containers, _get_dir_volume, declared_volumes.
  cbn [log_volume data_volume other_volume].
  destruct (property image_meta "log_volume") as [lv|] eqn:El;
    destruct (property image_meta "data_volume") as [dv|] eqn:Ed;
    destruct (property image_meta "other_volume") as [ov|] eqn:Eo;
    intros H;
    try (apply bind_ok_inv in H; destruct H as (ip & t1 & _ & H);
         apply bind_ok_inv in H; destruct H as (created & t2 & _ & H);
         injection H as <- _;
         split; [intros _|discriminate]).
  1-4: apply Exists_cons_hd; discriminate.
  1-2: apply Exists_cons_tl, Exists_cons_hd; discriminate.
  1: apply Exists_cons_tl, Exists_cons_tl, Exists_cons_hd; discriminate.
  injection H as <- _. split; [discriminate|]. intros _.
  repeat constructor.
Qed.

(** X14. The container that [spawn] goes on to start is the one it has just
    created: [spawn_create] returns a non-empty id only as the answer of a
    create call, and that call names the container after the instance, uses
    the image named by the metadata (whose format is [docker]), asks for
    network mode [none] and privileges, and refers to the companion
    [<instance-name>_vol] through volumes-from exactly when the image
    metadata declares a volume role. *)
Theorem spawn_creates_named_container (w : World) (conf : Config)
    (str : exn -> string)
    (instance : Instance) (image_meta : option ImageMeta)
    (network_info : NetworkInfo) (container_id : string) (tr tr' : trace) :
  spawn_create w conf str instance image_meta network_info tr
  = (Ok container_id, tr') ->
  container_id <> ""%string /\
  exists image args rest,
    image_meta = Some image /\
    im_container_format image = "docker"%string /\
    tr' = Call (Docker_create_container args) (Ok (Some container_id)) :: rest /\
    cc_image args = im_name image /\
    cc_name args = inst_name instance /\
    cc_network_disabled args = false /\
    hc_network_mode (cc_host_config args) = Some "none"%string /\
    hc_privileged (cc_host_config args) = Some true /\
    (Exists (fun rv => snd rv <> None) (declared_volumes image_meta) ->
     hc_volumes_from (cc_host_config args)
     = Some (inst_name instance ++ "_vol")%string) /\
    (Forall (fun rv => snd rv = None) (declared_volumes image_meta) ->
     hc_volumes_from (cc_host_config args) = None).
Proof.
  unfold spawn_create. intros H.
  apply bind_ok_inv in H. destruct H as (image_name & t1 & Hname & H).
  apply bind_ok_inv in H. destruct H as (inspected0 & t2 & _ & H).
  apply bind_ok_inv in H. destruct H as (image_inspect_info & t3 & _ & H).
  apply bind_ok_inv in H. destruct H as ([] & t4 & _ & H).
  apply bind_ok_inv in H. destruct H as (args & t5 & Hargs & H).
  apply bind_ok_inv in H. destruct H as (have_vol & t6 & Hvol & H).
  apply bind_ok_inv in H. destruct H as (created & t7 & Hcreate & H).
  apply get_image_name_inv in Hname.
  destruct Hname as (image & -> & Hfmt & ->).
  apply create_container_args_inv in Hargs.
  destruct Hargs as (_ & _ & _ & Hmode & Hpriv & _ & _ & Hfrom).
  apply create_volume_containers_inv in Hvol. destruct Hvol as [Hyes Hno].
  unfold _create_container, perform in Hcreate. cbn zeta in Hcreate.
  injection Hcreate as Hanswer <-.
  destruct created as [[|ch id]|]; try discriminate.
  cbn [truthy] in H. injection H as <- <-.
  split; [discriminate|].
  eexists image, _, t6. split; [reflexivity|]. split; [assumption|].
  split; [rewrite Hanswer; reflexivity|].
  cbn [cc_image cc_name cc_network_disabled cc_host_config hc_network_mode
         hc_privileged hc_volumes_from].
  repeat split.
  - now destruct have_vol.
  - now destruct have_vol.
  - intros Hdecl. destruct have_vol; [reflexivity|].
    exfalso. specialize (Hno eq_refl).
    apply Exists_exists in Hdecl. destruct Hdecl as (rv & Hin & Hrv).
    rewrite Forall_forall in Hno. exact (Hrv (Hno rv Hin)).
  - intros Hnone. destruct have_vol; [|exact Hfrom].
    exfalso. specialize (Hyes eq_refl).
    apply Exists_exists in Hyes. destruct Hyes as (rv & Hin & Hrv).
    rewrite Forall_forall in Hnone. exact (Hrv (Hnone rv Hin)).
Qed.

Lemma spawn_creates_named_container_witness :
  fst (spawn_create image_present_world default_conf
      message_of vm1 (Some init_image)
         (Some ["vif0"%string]) []) = Ok "c9"%string /\
  exists args rest,
    snd (spawn_create image_present_world default_conf
        message_of vm1 (Some init_image)
           (Some ["vif0"%string]) [])
    = Call (Docker_create_container args) (Ok (Some "c9"%string)) :: rest /\
    cc_name args = "vm1"%string /\
    cc_image args = "webapp"%string /\
    hc_volumes_from (cc_host_config args) = Some "vm1_vol"%string.
Proof.
  split; [reflexivity|].
  destruct (@spawn_creates_named_container image_present_world default_conf message_of
              vm1 (Some init_image) (Some ["vif0"%string]) "c9"%string []
              (snd (spawn_create image_present_world default_conf message_of vm1
                      (Some init_image) (Some ["vif0"%string]) []))
              eq_refl)
    as (_ & image & args & rest & Himage & _ & Htrace & Himg & Hname & _ & _
        & _ & Hfrom & _).
  exists args, rest. injection Himage as <-.
  repeat split; try assumption.
  apply Hfrom. apply Exists_cons_tl, Exists_cons_hd. discriminate.
Defined.

(** ** Pulling a missing image *)

Lemma bind_inv {A B} (m : M A) (k : A -> M B) (tr tr' : trace) (r : Res B) :
  bind m k tr = (r, tr') ->
  (exists a t, m tr = (Ok a, t) /\ k a t = (r, tr')) \/
  (exists e, m tr = (Raise e, tr') /\ r = Raise e).
Proof.
  unfold bind. destruct (m tr) as [[a|e] t].
  - intros H. left. now exists a, t.
  - intros [= <- <-]. right. now exists e.
Qed.

(** [utils.tempdir] removes its directory on the way out, whatever the
    body did. *)
Lemma with_tempdir_removes {A} (w : World) (dir : string)
    (body : string -> M A) (tmpdir : string) (tr tr' : trace) (r : Res A) :
  (forall d, issues (fun _ => True) (body d)) ->
  w _ tr (Tempfile_mkdtemp dir) = Ok tmpdir ->
  with_tempdir w dir body tr = (r, tr') ->
  exists between,
    tr' = Call (Shutil_rmtree tmpdir)
            (w _ (between ++ Call (Tempfile_mkdtemp dir) (Ok tmpdir) :: tr)
               (Shutil_rmtree tmpdir))
            :: between ++ Call (Tempfile_mkdtemp dir) (Ok tmpdir) :: tr.
Proof.
  intros Hbody Hmk. unfold with_tempdir, bind, perform at 1. cbn zeta.
  rewrite Hmk. unfold try_finally.
  destruct (body tmpdir _) as [rb t1] eqn:Eb.
  destruct (Hbody _ _ _ _ Eb) as (between & -> & _).
  unfold try_except, perform. cbn zeta.
  destruct (w _ _ (Shutil_rmtree tmpdir)) as [[]|e] eqn:Erm.
  - intros [= <- <-]. exists between. now rewrite Erm.
  - destruct e; unfold ret, raise; intros [= <- <-]; exists between;
      now rewrite Erm.
Qed.

(** X15. [_pull_missing_image] always asks for its temporary directory to
    be removed: once the snapshot directory is ensured and the temporary
    directory made, every run, failed or not, goes on to call [rmtree] on
    that directory, the recorded answer being the host's; whether the
    directory is gone afterwards is up to that answer.  When the download of
    the image raises [e] and the [rmtree] call returns, the caller is raised
    a [NovaException] whose message is [Cannot load repository file: ]
    followed by the text of [e], and the image is neither loaded nor
    inspected. *)
Theorem pull_missing_image_removes_tempdir (w : World) (conf : Config)
    (str : exn -> string)
    (image : ImageMeta) (instance : Instance) (tmpdir : string)
    (tr : trace) :
  let snapshot_directory := snapshots_directory conf in
  let ensured :=
    Call (Fileutils_ensure_tree snapshot_directory) (Ok tt) :: tr in
  let made := Call (Tempfile_mkdtemp snapshot_directory) (Ok tmpdir) :: ensured in
  let hex := w _ made Uuid_uuid4_hex in
  let named := Call Uuid_uuid4_hex hex :: made in
  let fetch :=
    Images_fetch (im_id image) (tmpdir ++ "/" ++ hex)%string
      (inst_user_id instance) (inst_project_id instance) in
  w _ tr (Fileutils_ensure_tree snapshot_directory) = Ok tt ->
  w _ ensured (Tempfile_mkdtemp snapshot_directory) = Ok tmpdir ->
  (exists after between,
     snd (_pull_missing_image w conf str (Some image) instance tr)
     = after
       ++ Call (Shutil_rmtree tmpdir)
            (w _ (between ++ made) (Shutil_rmtree tmpdir))
       :: between ++ made) /\
  (forall e,
     w _ named fetch = Raise e ->
     w _ (Call fetch (Raise e) :: named) (Shutil_rmtree tmpdir) = Ok tt ->
     _pull_missing_image w conf str (Some image) instance tr
     = (Raise (NovaException
                 ("Cannot load repository file: " ++ str e)%string
                 (im_name image)),
        Call (Shutil_rmtree tmpdir) (Ok tt)
          :: Call fetch (Raise e) :: named)).
Proof.
  intros snapshot_directory ensured made hex named fetch Hensure Hmk.
  subst snapshot_directory. split.
  - destruct (_pull_missing_image w conf str (Some image) instance tr)
      as [r tr'] eqn:H. cbn [snd].
    unfold _pull_missing_image in H. cbn [subscript] in H.
    unfold bind at 1 in H. cbn [ret] in H.
    unfold bind at 1, perform at 1 in H. cbn zeta in H.
    rewrite Hensure in H. fold ensured in H.
    apply bind_inv in H.
    assert (Hbody : forall d,
      issues (fun _ : call => True)
        (try_except
           (hex0 <- query w Uuid_uuid4_hex ;;
            image_id <- ret (im_id image) ;;
            perform w (Images_fetch image_id (d ++ "/" ++ hex0)
                         (inst_user_id instance) (inst_project_id instance)) ;;
            name <- ret (im_name image) ;;
            perform w (Docker_load_repository_file name (d ++ "/" ++ hex0)))%py
           (fun e =>
              name <- ret (im_name image) ;;
              raise (NovaException
                       ("Cannot load repository file: " ++ str e)
                       name))%py)).
    { intros d. apply issues_try_except.
      - apply issues_bind; [now apply issues_query|intros h].
        apply issues_bind; [apply issues_ret|intros i].
        apply issues_bind; [now apply issues_perform|intros _].
        apply issues_bind; [apply issues_ret|intros n].
        now apply issues_perform.
      - intros e. apply issues_bind; [apply issues_ret|intros n].
        apply issues_raise. }
    destruct H as [(a & t & Hwith & Hrest)|(e & Hwith & _)];
      destruct (@with_tempdir_removes _ w _ _ tmpdir ensured _ _
                  Hbody Hmk Hwith)
        as (between & Ht).
    + subst t. unfold bind, perform, ret in Hrest. cbn zeta in Hrest.
      injection Hrest as _ <-. now eexists [_], between.
    + subst tr'. now exists [], between.
  - intros e Hfetch Hrm.
    unfold _pull_missing_image, with_tempdir, try_finally, try_except,
      subscript, bind, perform, query, ret, raise. cbn zeta.
    rewrite Hensure. fold ensured. rewrite Hmk. fold made. fold hex.
    fold named. fold fetch. rewrite Hfetch, Hrm. reflexivity.
Qed.

Lemma pull_missing_image_removes_tempdir_witness :
  _pull_missing_image fetch_fails_world default_conf
      message_of (Some plain_image) vm1 []
  = (Raise (NovaException "Cannot load repository file: glance unreachable"
              "webapp"),
     [Call (Shutil_rmtree "/tmp/tmpdir") (Ok tt);
      Call (Images_fetch "0f3a9c1e-77aa-4d2b-9b1c-5e6f7a8b9c0d"
              "/tmp/tmpdir/0123456789abcdef" "user" "project")
        (Raise (IOError "glance unreachable"));
      Call Uuid_uuid4_hex "0123456789abcdef"%string;
      Call (Tempfile_mkdtemp "/var/lib/nova/instances/snapshots")
        (Ok "/tmp/tmpdir"%string);
      Call (Fileutils_ensure_tree "/var/lib/nova/instances/snapshots")
        (Ok tt)]).
Proof.
  exact (proj2 (@pull_missing_image_removes_tempdir fetch_fails_world
                  default_conf
                      message_of plain_image vm1 "/tmp/tmpdir"%string []
                  eq_refl eq_refl)
           (IOError "glance unreachable") eq_refl eq_refl).
Defined.

(** ** Tagging an image *)

Lemma substring_prefix (a rest : string) :
  substring 0 (String.length a) (a ++ rest)%string = a.
Proof.
  induction a as [|ch a IH]; simpl.
  - now destruct rest.
  - now rewrite IH.
Qed.

Lemma substring_skip (a rest : string) (m : nat) :
  substring (String.length a) m (a ++ rest)%string = substring 0 m rest.
Proof.
  induction a as [|ch a IH]; simpl; [reflexivity|exact IH].
Qed.

Lemma length_append (a b : string) :
  String.length (a ++ b)%string = (String.length a + String.length b)%nat.
Proof.
  induction a as [|ch a IH]; simpl; [reflexivity|now rewrite IH].
Qed.

(** X16. For image metadata of type [image], [_tag_image_name] tags the
    image whose id is the first eight characters of the metadata id
    followed by its tenth to thirteenth: of an id [a-b...], with [a] of
    eight and [b] of four characters, the twelve characters [ab], the
    separator being dropped.  For any other type (or none, which means
    [repository]) nothing is tagged. *)
Theorem tag_image_name_short_id (w : World) (image : ImageMeta)
    (image_name : string) (tr : trace) :
  (forall a separator b rest : string,
     property (Some image) "docker_image_type" = Some "image"%string ->
     im_id image = (a ++ separator ++ b ++ rest)%string ->
     String.length a = 8%nat ->
     String.length separator = 1%nat ->
     String.length b = 4%nat ->
     let tag := Docker_tag (a ++ b)%string image_name in
     _tag_image_name w (Some image) image_name tr
     = (w _ tr tag, Call tag (w _ tr tag) :: tr)) /\
  (property (Some image) "docker_image_type" <> Some "image"%string ->
   _tag_image_name w (Some image) image_name tr = (Ok tt, tr)).
Proof.
  split.
  - intros a separator b rest Htype Hid Ha Hsep Hb tag. subst tag.
    unfold _tag_image_name. rewrite Htype. cbn [String.eqb Ascii.eqb Bool.eqb].
    cbn [subscript]. unfold bind, ret, perform. cbn zeta. rewrite Hid.
    assert (H1 : substring 0 8 (a ++ separator ++ b ++ rest)%string = a)
      by (rewrite <- Ha; apply substring_prefix).
    assert (H2 : substring 9 4 (a ++ separator ++ b ++ rest)%string = b).
    { rewrite <- str_app_assoc.
      replace 9%nat with (String.length (a ++ separator)%string)
        by (rewrite length_append; lia).
      rewrite substring_skip, <- Hb. apply substring_prefix. }
    now rewrite H1, H2.
  - intros Htype. unfold _tag_image_name.
    destruct (property (Some image) "docker_image_type") as [t|];
      [|reflexivity].
    destruct (String.eqb t "image") eqn:E; [|reflexivity].
    apply String.eqb_eq in E. congruence.
Qed.

Lemma tag_image_name_short_id_witness :
  _tag_image_name empty_world (Some committed_image) "snapshot-1" []
  = (Ok tt, [Call (Docker_tag "0f3a9c1e77aa" "snapshot-1") (Ok tt)]) /\
  _tag_image_name empty_world (Some plain_image) "webapp" [] = (Ok tt, []).
Proof.
  split.
  - exact (proj1 (tag_image_name_short_id empty_world committed_image
                    "snapshot-1" [])
             "0f3a9c1e"%string "-"%string "77aa"%string
             "-4d2b-9b1c-5e6f7a8b9c0d"%string
             eq_refl eq_refl eq_refl eq_refl eq_refl).
  - apply (proj2 (tag_image_name_short_id empty_world plain_image
                    "webapp" [])).
    discriminate.
Defined.

(** ** CPU set of an empty allocation *)

(** X17. When the allocation map hands out no processor, [_get_cpu_set]
    does not return an empty set: it raises
    [IndexError], in [cpuset] and [mix] mode as in [cpushare] mode with a
    system-reserved set; and so does [_create_container_args], before it
    looks up the DNS servers. *)
Theorem cpu_set_of_nothing_raises (w : World) (conf : Config)
    (instance : Instance) (tr : trace) :
  let system_cpuset := docker_system_cpuset conf in
  let built := Call (Cpuset_CpusetStatsMap system_cpuset) (Ok tt) :: tr in
  let mapped := Call (Cpuset_get_map system_cpuset) (Ok tt) :: built in
  let asked :=
    Cpuset_less_set_cpus system_cpuset (vcpus (inst_flavor instance)) in
  w _ tr (Cpuset_CpusetStatsMap system_cpuset) = Ok tt ->
  (docker_cpu_mode conf = "cpuset"%string \/
   docker_cpu_mode conf = "mix"%string ->
   w _ built (Cpuset_get_map system_cpuset) = Ok tt ->
   w _ mapped asked = Ok [] ->
   _get_cpu_set w conf instance tr
   = (Raise IndexError, Call asked (Ok []) :: mapped) /\
   forall image_meta image_inspect_info network_info,
     _create_container_args w conf instance image_meta image_inspect_info
       network_info tr
     = (Raise IndexError, Call asked (Ok []) :: mapped)) /\
  (docker_cpu_mode conf = "cpushare"%string ->
   system_cpuset <> "-1"%string ->
   w _ built (Cpuset_get_unsystem_cpu system_cpuset) = Ok [] ->
   _get_cpu_set w conf instance tr
   = (Raise IndexError,
      Call (Cpuset_get_unsystem_cpu system_cpuset) (Ok []) :: built)).
Proof.
  intros system_cpuset built mapped asked Hnew.
  subst system_cpuset built mapped asked. split.
  - intros Hmode Hmap Hless.
    assert (Hm : is_cpuset_or_mix (docker_cpu_mode conf) = true)
      by (destruct Hmode as [-> | ->]; reflexivity).
    assert (Hset : _get_cpu_set w conf instance tr
                   = (Raise IndexError,
                      Call (Cpuset_less_set_cpus (docker_system_cpuset conf)
                              (vcpus (inst_flavor instance))) (Ok [])
                        :: Call (Cpuset_get_map (docker_system_cpuset conf))
                             (Ok tt)
                        :: Call (Cpuset_CpusetStatsMap
                                   (docker_system_cpuset conf)) (Ok tt)
                        :: tr)).
    { unfold _get_cpu_set. rewrite Hm. unfold bind, perform. cbn zeta.
      now rewrite Hnew, Hmap, Hless. }
    split; [exact Hset|].
    intros image_meta image_inspect_info network_info.
    unfold _create_container_args, bind at 1. now rewrite Hset.
  - intros Hmode Hsys Hall. unfold _get_cpu_set. rewrite Hmode.
    change (is_cpuset_or_mix "cpushare") with false. cbn iota.
    apply String.eqb_neq in Hsys. rewrite Hsys. cbn [negb].
    unfold bind, perform. cbn zeta. now rewrite Hnew, Hall.
Qed.

Lemma cpu_set_of_nothing_raises_witness :
  fst (_get_cpu_set empty_world (with_cpu_mode "cpuset" "-1") vm1 [])
  = Raise IndexError /\
  fst (_get_cpu_set empty_world (with_cpu_mode "cpushare" "0,1") vm1 [])
  = Raise IndexError.
Proof.
  pose proof (@cpu_set_of_nothing_raises empty_world
                (with_cpu_mode "cpuset" "-1") vm1 [] eq_refl) as [Hset _].
  pose proof (@cpu_set_of_nothing_raises empty_world
                (with_cpu_mode "cpushare" "0,1") vm1 [] eq_refl) as [_ Hshare].
  split.
  - now rewrite (proj1 (Hset (or_introl eq_refl) eq_refl eq_refl)).
  - now rewrite (Hshare eq_refl ltac:(discriminate) eq_refl).
Defined.

(** ** Migration: the successful export and its confirmation *)






(** X19. [confirm_migration] removes the archive that the export wrote, and
    only on request.  With the container found, stopped and removed, and
    its network torn down (which cannot fail), the source archive
    [<snapshot-dir>/migrate_src/<name>.tar] is removed by a last [rm -rf]
    call when [delete_migration_source] is set, and nothing more is called
    when it is not.  Without a container nothing is called after the
    lookup, whatever the setting: the archive stays. *)
Theorem confirm_migration_removes_source_archive (w : World) (conf : Config)
    (instance : Instance) (network_info : NetworkInfo)
    (found : option string) (tr tr1 : trace) :
  _get_container_id w instance tr = (Ok found, tr1) ->
  (truthy found = None ->
   confirm_migration w conf instance network_info tr = (Ok tt, tr1)) /\
  (forall container_id tr2,
     truthy found = Some container_id ->
     _stop_container w container_id instance 10 tr1 = (Ok tt, tr2) ->
     w _ tr2 (Docker_remove_container container_id true false) = Ok tt ->
     let removed :=
       Call (Docker_remove_container container_id true false) (Ok tt)
         :: tr2 in
     let unwired :=
       snd (_network_delete w instance network_info container_id removed) in
     let rm :=
       Utils_execute ["rm"; "-rf"; source_archive conf instance]%string
         false in
     (delete_migration_source conf = false ->
      confirm_migration w conf instance network_info tr = (Ok tt, unwired)) /\
     (delete_migration_source conf = true ->
      confirm_migration w conf instance network_info tr
      = (w _ unwired rm, Call rm (w _ unwired rm) :: unwired))).
Proof.
  intros Hid. split.
  - intros Habsent.
    unfold confirm_migration, _cleanup_resize, bind at 1.
    now rewrite Hid, Habsent.
  - intros container_id tr2 Hfound Hstop Hremove removed unwired rm.
    subst rm unwired removed.
    assert (Hnet : forall t,
              _network_delete w instance network_info container_id t
              = (Ok tt,
                 snd (_network_delete w instance network_info container_id t))).
    { intros t. unfold _network_delete, try_except.
      match goal with
      | |- (let (r, tr') := ?b t in _) = _ => destruct (b t) as [[[]|e] t']
      end; reflexivity. }
    split; intros Hflag;
      unfold confirm_migration, _cleanup_resize, bind at 1;
      rewrite Hid, Hfound; unfold bind at 1; rewrite Hstop;
      unfold bind at 1, perform at 1; cbn zeta; rewrite Hremove;
      unfold bind at 1; rewrite Hnet; rewrite Hflag; cbn [negb].
    + reflexivity.
    + unfold remove_archive, perform, source_archive. cbn zeta.
      repeat rewrite str_app_assoc. reflexivity.
Qed.

Lemma confirm_migration_removes_source_archive_witness :
  confirm_migration running_world deleting_conf vm1 (Some ["vif0"%string]) []
  = (Ok tt,
     Call (Utils_execute
             ["rm"; "-rf";
              "/var/lib/nova/instances/snapshots/migrate_src/vm1.tar"]%string
             false) (Ok tt)
     :: snd (_network_delete running_world vm1 (Some ["vif0"%string]) "c1"
               (Call (Docker_remove_container "c1" true false) (Ok tt)
                  :: snd (_stop_container running_world "c1" vm1 10
                            (snd (_get_container_id running_world vm1 [])))))) /\
  confirm_migration vm10_world deleting_conf vm1 (Some ["vif0"%string]) []
  = (Ok tt, vm10_listing).
Proof.
  split.
  - exact (proj2 (proj2 (@confirm_migration_removes_source_archive
                    running_world deleting_conf vm1 (Some ["vif0"%string])
                    (Some "c1"%string) [] _ eq_refl)
                   "c1"%string _ eq_refl eq_refl eq_refl) eq_refl).
  - exact (proj1 (@confirm_migration_removes_source_archive
                    vm10_world deleting_conf vm1 (Some ["vif0"%string])
                    None [] vm10_listing eq_refl) eq_refl).
Defined.

(** ** Migration: finishing on the destination *)

Lemma idle_polls_forall (P : call -> Prop) (container_id : string)
    (infos : list (option InspectInfo)) :
  (forall answer, P (Call (Docker_inspect_container container_id) answer)) ->
  P (Call (Time_sleep 1) tt) ->
  Forall P (idle_polls container_id infos).
Proof.
  intros Hinspect Hsleep.
  induction infos as [|info infos IH]; simpl; repeat constructor; auto.
Qed.

Lemma find_container_pid_issues_gen (w : World) (P : call -> Prop)
    (container_id : string) :
  (forall answer, P (Call (Docker_inspect_container container_id) answer)) ->
  P (Call (Time_sleep 1) tt) ->
  issues P (_find_container_pid w container_id).
Proof.
  intros Hinspect Hsleep tr tr' r H.
  pose proof (find_container_pid_loop_spec w container_id 0 tr eq_refl)
    as (infos & _ & _ & Hres).
  unfold _find_container_pid in H. rewrite H in Hres.
  pose proof (idle_polls_forall P container_id infos Hinspect Hsleep)
    as Hidle.
  destruct Hres as [(i & _ & _ & _ & [= -> ->])
                   |[(e & _ & _ & [= -> ->])|(_ & [= -> ->])]].
  - eexists (_ :: _). split; [reflexivity|]. now constructor.
  - eexists (_ :: _). split; [reflexivity|]. now constructor.
  - now exists (idle_polls container_id infos).
Qed.

(** The network setup issues wiring calls only. *)
Lemma setup_network_wiring (w : World) (instance : Instance)
    (network_info : NetworkInfo) :
  issues (fun c => wiring_call c = true)
    (setup_network w instance network_info).
Proof.
  unfold setup_network, plug_vifs, _attach_vifs, ensure_netns_path.
  apply issues_bind.
  - apply issues_bind; [apply issues_iterate|intros vifs].
    apply issues_for_each. intros vif. now apply issues_perform.
  - intros _. destruct (negb (truthy_list network_info));
      [apply issues_ret|].
    apply issues_bind.
    { apply issues_weaken with (P := fun c => is_lookup c = true);
        [|apply get_container_id_issues_lookups].
      intros [T e a]; simpl. destruct e; simpl; congruence. }
    intros cid.
    destruct (truthy cid) as [container_id|]; [|apply issues_ret].
    apply issues_bind.
    { apply issues_bind; [now apply issues_query|intros there].
      destruct (negb there); [now apply issues_perform|apply issues_ret]. }
    intros _. apply issues_bind;
      [now apply find_container_pid_issues_gen|].
    intros [[|p|p]|]; try apply issues_raise;
      (apply issues_bind; [now apply issues_perform|intros _];
       apply issues_bind; [now apply issues_perform|intros _];
       apply issues_bind; [apply issues_iterate|intros vifs];
       apply issues_for_each; intros vif; now apply issues_perform).
Qed.

Lemma network_setup_call_not_rm (c : call) :
  network_setup_call c = false -> is_rm c = false.
Proof. destruct c as [T e a]. destruct e; simpl; congruence. Qed.

Lemma wiring_call_not_rm (c : call) : wiring_call c = true -> is_rm c = false.
Proof.
  destruct c as [T e a]. destruct e; simpl; try congruence.
  destruct (String.eqb_spec (program cmd) "rm") as [->|]; [|reflexivity].
  discriminate.
Qed.

Lemma create_container_args_issues (w : World) (conf : Config)
    (instance : Instance) (image_meta : option ImageMeta)
    (image_inspect_info : option ImageInspect) (network_info : NetworkInfo) :
  issues (fun c => network_setup_call c = false)
    (_create_container_args w conf instance image_meta image_inspect_info
       network_info).
Proof.
  unfold _create_container_args, find_dns_list, _get_cpu_set.
  apply issues_bind.
  { destruct (is_cpuset_or_mix (docker_cpu_mode conf)).
    - apply issues_bind; [now apply issues_perform|intros _].
      apply issues_bind; [now apply issues_perform|intros _].
      apply issues_bind; [now apply issues_perform|intros cpus].
      apply issues_bind; [apply join_cpu_numbers_issues|intros set_str].
      apply issues_ret.
    - destruct (negb (String.eqb (docker_system_cpuset conf) "-1"));
        [|apply issues_ret].
      apply issues_bind; [now apply issues_perform|intros _].
      apply issues_bind; [now apply issues_perform|intros cpus].
      apply issues_bind; [apply join_cpu_numbers_issues|intros set_str].
      apply issues_ret. }
  intros cpuset. apply issues_bind.
  { apply issues_bind; [now apply issues_perform|intros dns].
    apply issues_ret. }
  intros dns. apply issues_ret.
Qed.

(** Starting a container and wiring it never removes a file. *)
Lemma start_container_never_removes (w : World) (conf : Config)
    (str : exn -> string)
    (container_id : string) (instance : Instance)
    (network_info : NetworkInfo) :
  issues (fun c => is_rm c = false)
    (_start_container w conf str container_id instance network_info).
Proof.
  unfold _start_container. apply issues_bind.
  - apply issues_weaken with (P := fun c => network_setup_call c = false);
      [apply network_setup_call_not_rm|apply start_container_launch_issues].
  - intros _. unfold _start_container_network.
    destruct (negb (truthy_list network_info)); [apply issues_ret|].
    apply issues_try_except.
    + apply issues_weaken with (P := fun c => wiring_call c = true);
        [apply wiring_call_not_rm|apply setup_network_wiring].
    + intros e. apply issues_bind; [now apply issues_perform|intros _].
      apply issues_raise.
Qed.

Lemma finish_migration_start_never_removes (w : World) (conf : Config)
    (str : exn -> string)
    (instance : Instance) (network_info : NetworkInfo)
    (image_meta : option ImageMeta) (image_tar_name : string) :
  issues (fun c => is_rm c = false)
    (finish_migration_start w conf str instance network_info image_meta
       image_tar_name).
Proof.
  unfold finish_migration_start, _create_container.
  apply issues_bind; [now apply issues_perform|intros _].
  apply issues_bind; [now apply issues_perform|intros info].
  apply issues_bind.
  { apply issues_weaken with (P := fun c => network_setup_call c = false);
      [apply network_setup_call_not_rm|apply create_container_args_issues]. }
  intros args. apply issues_bind; [now apply issues_perform|intros created].
  destruct (truthy created) as [cid|]; [|apply issues_raise].
  apply start_container_never_removes.
Qed.

(** X20. [finish_migration] removes the transferred archive only as its
    last step.  Either the run fails before the removal, and then no [rm]
    was issued: the archive is kept; or its newest call is the [rm -rf] of
    [<snapshot-dir>/migrate_dest/<name>.tar], issued after the archive was
    loaded and the container created and started, no [rm] coming before it,
    and the outcome of the run is the outcome of that removal. *)
Theorem finish_migration_removes_archive_last (w : World) (conf : Config)
    (str : exn -> string)
    (instance : Instance) (network_info : NetworkInfo)
    (image_meta : option ImageMeta) (tr tr' : trace) (r : Res unit) :
  finish_migration w conf str instance network_info image_meta tr = (r, tr') ->
  let rm :=
    Utils_execute ["rm"; "-rf"; dest_archive conf instance]%string false in
  (exists e new,
     r = Raise e /\ tr' = new ++ tr /\ Forall (fun c => is_rm c = false) new)
  \/
  (exists before,
     tr' = Call rm r :: before ++ tr /\
     Forall (fun c => is_rm c = false) before /\
     finish_migration_start w conf str instance network_info image_meta
       (dest_archive conf instance) tr = (Ok tt, before ++ tr)).
Proof.
  unfold finish_migration. cbn zeta.
  assert (Hpath : ((snapshots_directory conf ++ "/migrate_dest/")
                     ++ inst_name instance ++ ".tar"
                   = dest_archive conf instance)%string)
    by (unfold dest_archive; repeat rewrite str_app_assoc; reflexivity).
  rewrite Hpath. intros H.
  apply bind_inv in H.
  destruct H as [([] & t & Hstart & Hrm)|(e & Hstart & ->)];
    destruct (finish_migration_start_never_removes w conf str instance
                network_info image_meta (dest_archive conf instance)
                _ Hstart) as (new & -> & Hnew).
  - right. unfold remove_archive, perform in Hrm. cbn zeta in Hrm.
    injection Hrm as <- <-. exists new. now repeat split.
  - left. now exists e, new.
Qed.

Lemma finish_migration_removes_archive_last_witness :
  fst (finish_migration image_present_world default_conf message_of vm1
         (Some ["vif0"%string]) (Some plain_image) []) = Ok tt /\
  (exists rest,
     snd (finish_migration image_present_world default_conf message_of vm1
            (Some ["vif0"%string]) (Some plain_image) [])
     = Call (Utils_execute
               ["rm"; "-rf";
                "/var/lib/nova/instances/snapshots/migrate_dest/vm1.tar"]%string
               false) (Ok tt) :: rest) /\
  fst (finish_migration plug_fails_world default_conf message_of vm1
         (Some ["vif0"%string]) (Some plain_image) [])
  = Raise (InstanceDeployFailure "Cannot setup network: ovs-vsctl failed"
             "vm1") /\
  Forall (fun c => is_rm c = false)
    (snd (finish_migration plug_fails_world default_conf message_of vm1
            (Some ["vif0"%string]) (Some plain_image) [])).
Proof.
  split; [reflexivity|]. split.
  - destruct (@finish_migration_removes_archive_last image_present_world
                default_conf
                    message_of vm1 (Some ["vif0"%string]) (Some plain_image)
                [] _ _ (surjective_pairing _))
      as [(e & new & He & _)|(before & Htr & _)].
    + discriminate He.
    + exists (before ++ []). exact Htr.
  - split; [reflexivity|].
    destruct (@finish_migration_removes_archive_last plug_fails_world
                default_conf
                    message_of vm1 (Some ["vif0"%string]) (Some plain_image)
                [] _ _ (surjective_pairing _))
      as [(e & new & _ & Htr & Hnew)|(before & Htr & _)].
    + rewrite Htr, app_nil_r. exact Hnew.
    + exfalso. revert Htr. vm_compute. discriminate.
Defined.

(** ** Attaching the VIFs *)

(** A pid that the poll returns is not zero. *)
Lemma find_container_pid_nonzero (w : World) (container_id : string)
    (pid : Z) (tr tr' : trace) :
  _find_container_pid w container_id tr = (Ok (Some pid), tr') -> pid <> 0.
Proof.
  intros H.
  pose proof (find_container_pid_loop_spec w container_id 0 tr eq_refl)
    as (infos & _ & _ & Hres).
  unfold _find_container_pid in H. rewrite H in Hres.
  destruct Hres as [(i & _ & Hpid & _ & [= -> _])
                   |[(e & _ & _ & [=])|(_ & [=])]].
  exact Hpid.
Qed.

(** X21. With the container found and its process id [pid] discovered,
    [_attach_vifs] links the network namespace of that process under the
    container's id ([ln -sf /proc/<pid>/ns/net /var/run/netns/<id>]), brings
    the loopback interface up inside it, and then attaches every VIF of
    [network_info] in order, all as root and in this order; when these
    calls return, so does it. *)
Theorem attach_vifs_in_order (w : World) (instance : Instance)
    (vifs : list Vif) (found : option string) (container_id : string)
    (pid : Z) (tr tr1 tr2 tr3 : trace) :
  let link :=
    Utils_execute
      ["ln"; "-sf"; "/proc/" ++ Z_to_str pid ++ "/ns/net";
       "/var/run/netns/" ++ container_id]%string true in
  let loopback :=
    Utils_execute
      ["ip"; "netns"; "exec"; container_id; "ip"; "link"; "set"; "lo"; "up"]%string
      true in
  vifs <> [] ->
  _get_container_id w instance tr = (Ok found, tr1) ->
  truthy found = Some container_id ->
  ensure_netns_path w tr1 = (Ok tt, tr2) ->
  _find_container_pid w container_id tr2 = (Ok (Some pid), tr3) ->
  w _ tr3 link = Ok tt ->
  w _ (Call link (Ok tt) :: tr3) loopback = Ok tt ->
  (forall t vif, In vif vifs ->
                 w _ t (Vif_attach instance vif container_id false) = Ok tt) ->
  _attach_vifs w instance (Some vifs) tr
  = (Ok tt,
     vif_calls (fun vif => Vif_attach instance vif container_id false) vifs
       ++ Call loopback (Ok tt) :: Call link (Ok tt) :: tr3).
Proof.
  intros link loopback Hvifs Hid Hfound Hnetns Hpid Hlink Hlo Hattach.
  subst link loopback.
  pose proof (find_container_pid_nonzero _ _ _ Hpid) as Hnz.
  unfold _attach_vifs.
  destruct vifs as [|v vifs]; [congruence|]. cbn [truthy_list negb].
  unfold bind at 1. rewrite Hid, Hfound.
  unfold bind at 1. rewrite Hnetns.
  unfold bind at 1. rewrite Hpid.
  destruct pid as [|p|p]; [congruence| |];
    (unfold bind at 1, perform at 1; cbn zeta; rewrite Hlink;
     unfold bind at 1, perform at 1; cbn zeta; rewrite Hlo;
     unfold bind at 1, iterate, ret;
     now apply (for_each_all_return w
                  (fun vif => Vif_attach instance vif container_id false))).
Qed.

Lemma attach_vifs_in_order_witness :
  _attach_vifs running_world vm1 (Some ["vif0"; "vif1"]%string) []
  = (Ok tt,
     [Call (Vif_attach vm1 "vif1"%string "c1" false) (Ok tt);
      Call (Vif_attach vm1 "vif0"%string "c1" false) (Ok tt);
      Call (Utils_execute
              ["ip"; "netns"; "exec"; "c1"; "ip"; "link"; "set"; "lo"; "up"]%string
              true) (Ok tt);
      Call (Utils_execute
              ["ln"; "-sf"; "/proc/4242/ns/net"; "/var/run/netns/c1"]%string
              true) (Ok tt)]
     ++ snd (_find_container_pid running_world "c1"
               (snd (ensure_netns_path running_world
                       (snd (_get_container_id running_world vm1 [])))))).
Proof.
  apply (@attach_vifs_in_order running_world vm1 ["vif0"; "vif1"]%string
           (Some "c1"%string) "c1"%string 4242 []
           (snd (_get_container_id running_world vm1 []))
           (snd (ensure_netns_path running_world
                   (snd (_get_container_id running_world vm1 []))))
           (snd (_find_container_pid running_world "c1"
                   (snd (ensure_netns_path running_world
                           (snd (_get_container_id running_world vm1 [])))))));
    try reflexivity.
  discriminate.
Defined.
